(** * Raster geometry of sar_antarctica: bounds expansion, array merging,
      antimeridian check, tile lists

    Shallow embedding of [sar_antarctica/utils/raster.py], of
    [sar_antarctica/nci/preparation/create_dem_vrt.py] and of the
    antimeridian check exercised by [tests/sar_antarctica/test_dem.py].

    Python [float]s are kept behind an interface ([PyFloat]) with two
    instances: exact rationals [Q] and IEEE binary64 ([PrimFloat.float]),
    which is what CPython computes with and on which concrete calls are
    evaluated bit for bit.  Statements over the interface hold of both;
    statements over [Q] say what the arithmetic gives before rounding. *)

From Stdlib Require Import ZArith QArith Qabs Qround Floats Lia Lqa.
From stdpp Require Import gmap strings list fin_maps.

Set Warnings "-inexact-float".

(** ** Exceptions and results

    The exceptions are the ones the Python code raises.  Where the
    specification names an error class of its own, the code's exception
    stands for it: [AssertionError] for its InvalidInputError and
    [ValueError] for its ShapeMismatchError. *)

Inductive exn : Type :=
  | AssertionError
  | ZeroDivisionError
  | ValueError
  | OverflowError
  | IndexError
  | KeyError
  | TypeError
  | AttributeError
  | ExternalError (code : nat).

Inductive result (A : Type) : Type :=
  | Ok (a : A)
  | Raise (e : exn).
Arguments Ok {A} a.
Arguments Raise {A} e.

#[global] Instance result_ret : MRet result := fun A a => Ok a.
#[global] Instance result_bind : MBind result := fun A B f m =>
  match m with
  | Ok a => f a
  | Raise e => Raise e
  end.

(** ** Python floats *)

Class PyFloat (F : Type) : Type := {
  fadd : F → F → F;
  fsub : F → F → F;
  fmul : F → F → F;
  fdiv : F → F → F;
  fopp : F → F;
  fabs : F → F;
  fltb : F → F → bool;
  fis_zero : F → bool;
  (** [int(x)]: truncation toward zero *)
  fint : F → result Z;
  (** the implicit [float(n)] of a mixed [int * float] product *)
  of_int : Z → F
}.

(** [x / y] raises on a zero divisor. *)
Definition py_div `{PyFloat F} (x y : F) : result F :=
  if fis_zero y then Raise ZeroDivisionError else Ok (fdiv x y).

(** Exact rationals. *)
#[global] Instance Q_float : PyFloat Q := {|
  fadd := Qplus;
  fsub := Qminus;
  fmul := Qmult;
  fdiv := Qdiv;
  fopp := Qopp;
  fabs := Qabs;
  fltb x y := match Qcompare x y with Lt => true | _ => false end;
  fis_zero x := Qeq_bool x 0;
  fint x := Ok (Z.quot (Qnum x) (Zpos (Qden x)));
  of_int := inject_Z
|}.

(** IEEE binary64, the representation of a CPython [float]. *)
Definition float_trunc (x : float) : result Z :=
  match Prim2SF x with
  | S754_zero _ => Ok 0%Z
  | S754_finite s m e =>
      let mag := match e with
                 | Z0 => Zpos m
                 | Zpos p => (Zpos m * 2 ^ Zpos p)%Z
                 | Zneg p => Z.shiftr (Zpos m) (Zpos p)
                 end in
      Ok (if s then (- mag)%Z else mag)
  | S754_infinity _ => Raise OverflowError
  | S754_nan => Raise ValueError
  end.

Definition float_of_Z (z : Z) : float :=
  SF2Prim (binary_normalize prec emax z 0 false).

#[global] Instance binary64_float : PyFloat float := {|
  fadd := PrimFloat.add;
  fsub := PrimFloat.sub;
  fmul := PrimFloat.mul;
  fdiv := PrimFloat.div;
  fopp := PrimFloat.opp;
  fabs := PrimFloat.abs;
  fltb := PrimFloat.ltb;
  fis_zero := PrimFloat.is_zero;
  fint := float_trunc;
  of_int := float_of_Z
|}.

(** ** Bounding boxes and the extent arithmetic of [expand_raster_to_bounds] *)

(** A bounds tuple [(left, bottom, right, top)]. *)
Record bounds (F : Type) : Type := Bounds {
  b_left : F;
  b_bottom : F;
  b_right : F;
  b_top : F
}.
Arguments Bounds {F} _ _ _ _.
Arguments b_left {F} _.
Arguments b_bottom {F} _.
Arguments b_right {F} _.
Arguments b_top {F} _.

(** The same tuple read as [(min_x, min_y, max_x, max_y)]. *)
Abbreviation min_x := b_left.
Abbreviation min_y := b_bottom.
Abbreviation max_x := b_right.
Abbreviation max_y := b_top.

(** The locals of [expand_raster_to_bounds] that fix the new grid. *)
Record expansion (F : Type) : Type := Expansion {
  new_trg_left : F;
  new_trg_bottom : F;
  new_trg_right : F;
  new_trg_top : F;
  new_width : Z;
  new_height : Z
}.
Arguments Expansion {F} _ _ _ _ _ _.
Arguments new_trg_left {F} _.
Arguments new_trg_bottom {F} _.
Arguments new_trg_right {F} _.
Arguments new_trg_top {F} _.
Arguments new_width {F} _.
Arguments new_height {F} _.

Section Extent.
Context {F : Type} {float_ops : PyFloat F}.

(** [int(abs(trg - src) / res)], raster.py lines 94-97 *)
Definition new_pixels (trg src res : F) : result Z :=
  q ← py_div (fabs (fsub trg src)) res; fint q.

(** [int((hi - lo) / res)], raster.py lines 112-113 *)
Definition pixel_span (hi lo res : F) : result Z :=
  q ← py_div (fsub hi lo) res; fint q.

(** raster.py lines 89-113, from the source bounds, the target bounds and
    the two pixel sizes. *)
Definition expand_extent (trg src : bounds F) (lon_res lat_res : F)
  : result (expansion F) :=
  let '(Bounds src_left src_bottom src_right src_top) := src in
  let '(Bounds trg_left trg_bottom trg_right trg_top) := trg in
  new_left_pixels ← new_pixels trg_left src_left lon_res;
  new_right_pixels ← new_pixels trg_right src_right lon_res;
  new_bottom_pixels ← new_pixels trg_bottom src_bottom lat_res;
  new_top_pixels ← new_pixels trg_top src_top lat_res;
  let new_trg_left := fsub src_left (fmul (of_int new_left_pixels) lon_res) in
  let new_trg_right := fadd src_right (fmul (of_int new_right_pixels) lon_res) in
  let new_trg_bottom := fsub src_bottom (fmul (of_int new_bottom_pixels) lat_res) in
  let new_trg_top := fadd src_top (fmul (of_int new_top_pixels) lat_res) in
  let new_trg_left := if fltb src_left trg_left then src_left else new_trg_left in
  let new_trg_right := if fltb trg_right src_right then src_right else new_trg_right in
  let new_trg_bottom := if fltb src_bottom trg_bottom then src_bottom else new_trg_bottom in
  let new_trg_top := if fltb src_top trg_top then src_top else new_trg_top in
  new_width ← pixel_span new_trg_right new_trg_left lon_res;
  new_height ← pixel_span new_trg_top new_trg_bottom lat_res;
  mret (Expansion new_trg_left new_trg_bottom new_trg_right new_trg_top
          new_width new_height).

End Extent.

(** ** Python values, raster profiles and the object store *)

(** An [affine.Affine] transform [(a, b, c, d, e, f)]. *)
Record affine (F : Type) : Type := Affine {
  af_a : F; af_b : F; af_c : F;
  af_d : F; af_e : F; af_f : F
}.
Arguments Affine {F} _ _ _ _ _ _.
Arguments af_a {F} _.
Arguments af_b {F} _.
Arguments af_c {F} _.
Arguments af_d {F} _.
Arguments af_e {F} _.
Arguments af_f {F} _.

Inductive value (F : Type) : Type :=
  | VNone
  | VInt (n : Z)
  | VFloat (x : F)
  | VStr (s : string)
  | VAffine (t : affine F)
  | VCrs (epsg : Z).
Arguments VNone {F}.
Arguments VInt {F} n.
Arguments VFloat {F} x.
Arguments VStr {F} s.
Arguments VAffine {F} t.
Arguments VCrs {F} epsg.

(** A numpy array: its shape, dtype name and flattened items. *)
Record ndarray (F : Type) : Type := NDArray {
  shape : list Z;
  dtype_of : string;
  items : list F
}.
Arguments NDArray {F} _ _ _.
Arguments shape {F} _.
Arguments dtype_of {F} _.
Arguments items {F} _.

(** Dicts and arrays are mutable objects: they live in a store and are
    passed around by reference. *)
Inductive object (F : Type) : Type :=
  | ODict (d : gmap string (value F))
  | OArray (arr : ndarray F).
Arguments ODict {F} d.
Arguments OArray {F} arr.

Definition loc : Type := nat.

(** The third-party calls made by raster.py (rasterio, affine, numpy).
    They act on values only; [FS] is the state of the file system. *)
Class Rasterio (F FS : Type) : Type := {
  (** [rasterio.transform.array_bounds(height, width, transform)] *)
  array_bounds : Z → Z → affine F → result (bounds F);
  (** [rasterio.transform.from_origin(west, north, xsize, ysize)] *)
  from_origin : F → F → F → F → affine F;
  (** [np.full(shape, fill_value, dtype)] *)
  np_full : list Z → F → value F → result (ndarray F);
  (** one in-memory dataset per (profile, array) pair, then
      [rasterio.merge.merge(datasets, resampling, method, nodata, dtype)] *)
  rio_merge : list (gmap string (value F) * ndarray F) → string → string →
              value F → value F → result (ndarray F * affine F);
  (** [rasterio.open(path)]: band 1, the profile and the bounds *)
  rio_read : FS → string → result (ndarray F * gmap string (value F) * bounds F);
  (** [rasterio.open(path, 'w', **profile).write(array)] *)
  rio_write : FS → string → gmap string (value F) → ndarray F → result FS
}.

Section Store.
Context {F : Type}.
Local Abbreviation heap := (list (object F)).
Local Abbreviation profile := (gmap string (value F)).

(** [l[i]] on a Python list *)
Definition py_getitem {A : Type} (l : list A) (i : nat) : result A :=
  match l !! i with
  | Some x => Ok x
  | None => Raise IndexError
  end.

Definition get_dict (h : heap) (l : loc) : result profile :=
  match h !! l with
  | Some (ODict d) => Ok d
  | _ => Raise TypeError
  end.

Definition get_array (h : heap) (l : loc) : result (ndarray F) :=
  match h !! l with
  | Some (OArray arr) => Ok arr
  | _ => Raise AttributeError
  end.

(** A new object gets the next free reference. *)
Definition alloc (o : object F) (h : heap) : loc * heap :=
  (length h, h ++ [o]).

(** [d[k]] *)
Definition dict_getitem (h : heap) (l : loc) (k : string) : result (value F) :=
  d ← get_dict h l;
  match d !! k with
  | Some v => Ok v
  | None => Raise KeyError
  end.

(** [d[k] = v], in place *)
Definition dict_setitem (l : loc) (k : string) (v : value F) (h : heap)
  : result heap :=
  d ← get_dict h l; Ok (<[l := ODict (<[k := v]> d)]> h).

(** [d.copy()]: a new dict object with the same items *)
Definition dict_copy (l : loc) (h : heap) : result (loc * heap) :=
  d ← get_dict h l; Ok (alloc (ODict d) h).

Definition as_int (v : value F) : result Z :=
  match v with
  | VInt n => Ok n
  | _ => Raise TypeError
  end.

Definition as_affine (v : value F) : result (affine F) :=
  match v with
  | VAffine t => Ok t
  | _ => Raise AttributeError
  end.

Definition is_none (v : value F) : bool :=
  match v with
  | VNone => true
  | _ => false
  end.

(** truthiness of a [str] *)
Definition non_empty (s : string) : bool := negb (bool_decide (s = ""%string)).

(** truthiness of an optional dict: [None] and [{}] are falsy *)
Definition profile_truthy (h : heap) (p : option loc) : result bool :=
  match p with
  | None => Ok false
  | Some l => d ← get_dict h l; Ok (negb (bool_decide (d = ∅)))
  end.

(** [arr[np.newaxis, ...]] *)
Definition newaxis (arr : ndarray F) : ndarray F :=
  NDArray (1%Z :: shape arr) (dtype_of arr) (items arr).

Definition ndim (arr : ndarray F) : nat := length (shape arr).

(** The items of the merged profile, as lines 199-207 leave them. *)
Definition merged_items (p0 : profile) (merged_trans : affine F)
    (count height width : Z) (nodata dtype : value F) : profile :=
  let p := <["width" := VInt width]> (<["height" := VInt height]>
             (<["count" := VInt count]>
                (<["transform" := VAffine merged_trans]> p0))) in
  let p := if is_none nodata then p else <["nodata" := nodata]> p in
  if is_none dtype then p else <["dtype" := dtype]> p.

(** The items of the fill profile, as lines 119-124 leave them. *)
Definition fill_items (p : profile) (width height : Z) (transform : affine F)
  : profile :=
  <["transform" := VAffine transform]>
    (<["height" := VInt height]> (<["width" := VInt width]> p)).

End Store.

Section Raster.
Context {F FS : Type} {float_ops : PyFloat F} {rasterio : Rasterio F FS}.
Local Abbreviation heap := (list (object F)).
Local Abbreviation profile := (gmap string (value F)).

(** raster.py lines 177-193: the checks on the inputs, and the
    (profile, array) pairs the in-memory datasets are written from *)
Definition merge_inputs (arrays profiles : list loc) (h : heap)
  : result (list (profile * ndarray F)) :=
  a0 ← py_getitem arrays 0;
  arr0 ← get_array h a0;
  let n_dim := shape arr0 in
  if negb (bool_decide (length n_dim ∈ [2; 3]%nat)) then Raise ValueError else
  arrs ← mapM (get_array h) arrays;
  if negb (bool_decide (size (list_to_set (ndim <$> arrs) : gset nat) = 1%nat))
  then Raise ValueError else
  let arrays_input :=
    if bool_decide (length n_dim = 2%nat) then newaxis <$> arrs else arrs in
  if negb (bool_decide (length arrays = length profiles)) then Raise ValueError else
  profs ← mapM (get_dict h) profiles;
  Ok (zip profs arrays_input).

(** raster.py lines 199-207: the merged profile, a copy of [profiles[0]]
    updated in place *)
Definition merged_profile (p0 : loc) (merged_arr : ndarray F)
    (merged_trans : affine F) (nodata dtype : value F) (h : heap)
  : result (loc * heap) :=
  '(prof_merged, h) ← dict_copy p0 h;
  h ← dict_setitem prof_merged "transform" (VAffine merged_trans) h;
  count ← py_getitem (shape merged_arr) 0;
  h ← dict_setitem prof_merged "count" (VInt count) h;
  height ← py_getitem (shape merged_arr) 1;
  h ← dict_setitem prof_merged "height" (VInt height) h;
  width ← py_getitem (shape merged_arr) 2;
  h ← dict_setitem prof_merged "width" (VInt width) h;
  h ← (if is_none nodata then Ok h
       else dict_setitem prof_merged "nodata" nodata h);
  h ← (if is_none dtype then Ok h
       else dict_setitem prof_merged "dtype" dtype h);
  Ok (prof_merged, h).

(** raster.py lines 168-212 *)
Definition merge_arrays_with_geometadata (arrays profiles : list loc)
    (resampling : string) (nodata dtype : value F) (method : string)
    (h : heap) : result (loc * loc * heap) :=
  datasets ← merge_inputs arrays profiles h;
  '(merged_arr, merged_trans) ←
    rio_merge datasets resampling method nodata dtype;
  let '(la, h) := alloc (OArray merged_arr) h in
  p0 ← py_getitem profiles 0;
  '(prof_merged, h) ← merged_profile p0 merged_arr merged_trans nodata dtype h;
  Ok (la, prof_merged, h).

(** raster.py lines 76-77: the [assert] on the source arguments *)
Definition check_source_arguments (src_path : string)
    (src_profile src_array : option loc) (h : heap) : result unit :=
  if non_empty src_path then Ok tt else
  t ← profile_truthy h src_profile;
  if (t && bool_decide (is_Some src_array)) || t then Ok tt
  else Raise AssertionError.

(** raster.py lines 79-86: where the source array, profile and bounds
    come from *)
Definition resolve_source (src_path : string)
    (src_profile src_array : option loc) (h : heap) (fs : FS)
  : result (loc * option loc * bounds F * heap) :=
  if non_empty src_path then
    '(arr, prof, src_bounds) ← rio_read fs src_path;
    let '(la, h) := alloc (OArray arr) h in
    let '(lp, h) := alloc (ODict prof) h in
    Ok (lp, Some la, src_bounds, h)
  else
    lp ← match src_profile with
         | Some lp => Ok lp
         | None => Raise TypeError
         end;
    height ← dict_getitem h lp "height" ≫= as_int;
    width ← dict_getitem h lp "width" ≫= as_int;
    transform ← dict_getitem h lp "transform" ≫= as_affine;
    src_bounds ← array_bounds height width transform;
    Ok (lp, src_array, src_bounds, h).

(** raster.py lines 88-125: the fill profile and the fill array *)
Definition build_fill (trg_bounds src_bounds : bounds F) (src_profile : loc)
    (fill_value : F) (h : heap) : result (loc * loc * heap) :=
  transform ← dict_getitem h src_profile "transform" ≫= as_affine;
  let lon_res := fabs (af_a transform) in
  let lat_res := fabs (af_e transform) in
  g ← expand_extent trg_bounds src_bounds lon_res lat_res;
  let transform := from_origin (new_trg_left g) (new_trg_top g) lon_res lat_res in
  '(fill_profile, h) ← dict_copy src_profile h;
  h ← dict_setitem fill_profile "width" (VInt (new_width g)) h;
  h ← dict_setitem fill_profile "height" (VInt (new_height g)) h;
  h ← dict_setitem fill_profile "transform" (VAffine transform) h;
  dtype ← dict_getitem h src_profile "dtype";
  fill ← np_full [1%Z; new_height g; new_width g] fill_value dtype;
  let '(fill_array, h) := alloc (OArray fill) h in
  Ok (fill_array, fill_profile, h).

(** raster.py lines 61-145 *)
Definition expand_raster_to_bounds (trg_bounds : bounds F) (src_path : string)
    (src_profile src_array : option loc) (fill_value : F) (save_path : string)
    (h : heap) (fs : FS) : result (loc * loc * heap * FS) :=
  _ ← check_source_arguments src_path src_profile src_array h;
  '(src_profile, src_array, src_bounds, h) ←
    resolve_source src_path src_profile src_array h fs;
  '(fill_array, fill_profile, h) ←
    build_fill trg_bounds src_bounds src_profile fill_value h;
  '(trg_array, trg_profile, h) ←
    match src_array with
    | Some src_array =>
        nodata ← dict_getitem h src_profile "nodata";
        dtype ← dict_getitem h src_profile "dtype";
        merge_arrays_with_geometadata [src_array; fill_array]
          [src_profile; fill_profile] "bilinear" nodata dtype "first" h
    | None => Ok (fill_array, fill_profile, h)
    end;
  fs ← (if non_empty save_path then
          p ← get_dict h trg_profile;
          arr ← get_array h trg_array;
          rio_write fs save_path p arr
        else Ok fs);
  Ok (trg_array, trg_profile, h, fs).

End Raster.

(** ** Windowed reading *)

(** The rasterio calls made by [read_raster_with_bounds]; [W] is
    rasterio's [Window].  Which windows intersect, and what a read of a
    window returns, is decided there and not in raster.py. *)
Class RasterioWindows (F FS W : Type) : Type := {
  (** [rasterio.open(path)]: [src.transform], [src.bounds], [src.profile] *)
  rio_open : FS → string → result (affine F * bounds F * gmap string (value F));
  (** [rasterio.windows.from_bounds] on a bounds tuple, also [src.window] *)
  window_from_bounds : bounds F → affine F → result W;
  (** [window.intersection(other)] *)
  window_intersection : W → W → result W;
  window_height : W → value F;
  window_width : W → value F;
  (** [src.window_transform(window)] *)
  window_transform : affine F → W → affine F;
  (** [src.read(window=window)] *)
  rio_read_window : FS → string → W → result (ndarray F)
}.

Section Windowed.
Context {F FS W : Type} {float_ops : PyFloat F}
        {windows : RasterioWindows F FS W}.
Local Abbreviation heap := (list (object F)).

(** raster.py lines 228-242 *)
Definition buffered_bounds (bnds : bounds F) (buffer_pixels : F)
    (transform : affine F) : bounds F :=
  let pixel_size_x := fabs (af_a transform) in
  let pixel_size_y := fabs (af_e transform) in
  let buffer_x := fmul buffer_pixels pixel_size_x in
  let buffer_y := fmul buffer_pixels pixel_size_y in
  Bounds (fsub (min_x bnds) buffer_x) (fsub (min_y bnds) buffer_y)
         (fadd (max_x bnds) buffer_x) (fadd (max_y bnds) buffer_y).

(** raster.py lines 214-261 *)
Definition read_raster_with_bounds (file_path : string) (bnds : bounds F)
    (buffer_pixels : F) (h : heap) (fs : FS) : result (loc * loc * heap) :=
  '(transform, src_bounds, src_profile) ← rio_open fs file_path;
  window ← window_from_bounds (buffered_bounds bnds buffer_pixels transform)
             transform;
  extent ← window_from_bounds src_bounds transform;
  window ← window_intersection window extent;
  data ← rio_read_window fs file_path window;
  let '(data, h) := alloc (OArray data) h in
  let '(profile, h) := alloc (ODict src_profile) h in
  h ← dict_setitem profile "height" (window_height window) h;
  h ← dict_setitem profile "width" (window_width window) h;
  h ← dict_setitem profile "transform"
        (VAffine (window_transform transform window)) h;
  Ok (data, profile, h).

End Windowed.

(** ** A reference instance of the third-party calls

    Enough of rasterio and numpy to run the functions above on concrete
    inputs: unrotated transforms, constant arrays, a file system that is a
    map from paths to stored rasters, and a merge that is answered only
    for datasets laid on one common grid. *)

Section Reference.
Context {F : Type} {float_ops : PyFloat F}.
Local Abbreviation profile := (gmap string (value F)).

(** [array_bounds] of an unrotated transform:
    [(c, f + e * height, c + a * width, f)] *)
Definition north_up_bounds (height width : Z) (t : affine F) : bounds F :=
  Bounds (af_c t) (fadd (af_f t) (fmul (af_e t) (of_int height)))
         (fadd (af_c t) (fmul (af_a t) (of_int width))) (af_f t).

Definition ref_array_bounds (height width : Z) (t : affine F)
  : result (bounds F) :=
  if fis_zero (af_b t) && fis_zero (af_d t)
  then Ok (north_up_bounds height width t)
  else Raise (ExternalError 0).

(** [Affine.translation(west, north) * Affine.scale(xsize, -ysize)] *)
Definition ref_from_origin (west north xsize ysize : F) : affine F :=
  Affine xsize (of_int 0) west (of_int 0) (fopp ysize) north.

Definition ref_np_full (shp : list Z) (fill_value : F) (dtype : value F)
  : result (ndarray F) :=
  match dtype with
  | VStr s =>
      if forallb (Z.leb 0) shp
      then Ok (NDArray shp s
                 (replicate (Z.to_nat (foldr Z.mul 1%Z shp)) fill_value))
      else Raise ValueError
  | _ => Raise TypeError
  end.

Definition ref_merge (datasets : list (profile * ndarray F))
    (resampling method : string) (nodata dtype : value F)
  : result (ndarray F * affine F) :=
  match datasets with
  | (p, arr) :: rest =>
      match p !! "transform"%string with
      | Some (VAffine t) =>
          if forallb (λ d, bool_decide (shape (snd d) = shape arr)) rest
          then Ok (arr, t)
          else Raise (ExternalError 1)
      | _ => Raise (ExternalError 1)
      end
  | [] => Raise (ExternalError 1)
  end.

Definition ref_read (fs : gmap string (ndarray F * profile)) (path : string)
  : result (ndarray F * profile * bounds F) :=
  match fs !! path with
  | Some (arr, p) =>
      match p !! "height"%string, p !! "width"%string, p !! "transform"%string with
      | Some (VInt height), Some (VInt width), Some (VAffine t) =>
          Ok (NDArray [height; width] (dtype_of arr)
                (take (Z.to_nat (height * width)) (items arr)),
              p, north_up_bounds height width t)
      | _, _, _ => Raise (ExternalError 2)
      end
  | None => Raise (ExternalError 2)
  end.

Definition ref_write (fs : gmap string (ndarray F * profile)) (path : string)
    (p : profile) (arr : ndarray F)
  : result (gmap string (ndarray F * profile)) :=
  Ok (<[path := (arr, p)]> fs).

#[global] Instance reference_rasterio
  : Rasterio F (gmap string (ndarray F * profile)) := {|
  array_bounds := ref_array_bounds;
  from_origin := ref_from_origin;
  np_full := ref_np_full;
  rio_merge := ref_merge;
  rio_read := ref_read;
  rio_write := ref_write
|}.

End Reference.

(** ** Antimeridian check *)

(** Modelled from the spec: [check_bounds_cross_antimeridian] of
    sar_antarctica/nci/preparation/dem.py; that module is not among the
    sources, only its test is.  Section 4.6: true when the encoded
    [min_x > max_x], or when the span [max_x - min_x] exceeds 180 degrees
    of longitude. *)
Definition check_bounds_cross_antimeridian (b : bounds Q) : bool :=
  fltb (max_x b) (min_x b) || fltb 180%Q (max_x b - min_x b)%Q.

(** ** Sample inputs *)

(** A 2 x 2 single-band raster with unit pixels and its profile. *)
Definition sample_profile : gmap string (value Q) :=
  <["transform" := VAffine (Affine 1 0 0 0 (-1) 2)%Q]>
  (<["width" := VInt 2]> (<["height" := VInt 2]> (<["count" := VInt 1]>
  (<["dtype" := VStr "float32"]> (<["nodata" := VFloat 0%Q]>
  (<["crs" := VCrs 4326]> (<["driver" := VStr "GTiff"]> ∅))))))).

Definition sample_band : ndarray Q := NDArray [2; 2]%Z "float32" [1; 2; 3; 4]%Q.

Definition sample_raster : ndarray Q := newaxis sample_band.

(** A store holding the raster at reference 0 and its profile at 1, then
    the bare band at 2 and an empty dict at 3. *)
Definition sample_store : list (object Q) :=
  [OArray sample_raster; ODict sample_profile; OArray sample_band; ODict ∅].

(** A file system with the raster stored under "dem.tif". *)
Definition sample_files : gmap string (ndarray Q * gmap string (value Q)) :=
  {[ "dem.tif"%string := (sample_raster, sample_profile) ]}.

(** The 3 x 3 raster of 0.1-degree pixels with its upper left corner at
    (100.0, -70.0), in binary64, and a store holding its profile. *)
Definition tenth_degree_profile : gmap string (value float) :=
  <["transform" := VAffine (Affine 0.1 0 100 0 (-0.1) (-70))%float]>
  (<["width" := VInt 3]> (<["height" := VInt 3]> (<["count" := VInt 1]>
  (<["dtype" := VStr "float32"]> (<["nodata" := VFloat 0%float]> ∅))))).

Definition tenth_degree_store : list (object float) :=
  [ODict tenth_degree_profile].

(** ** Paths, files on disk and shell commands *)

(** [FileNotFoundError], the [OSError] of [errno.ENOENT] *)
Definition FileNotFoundError : exn := ExternalError 2.

(** [s.replace(old, new)]: every non-overlapping occurrence of [old],
    found from the left, becomes [new].  [skip] counts the characters of
    the occurrence being replaced that are still to be passed over. *)
Fixpoint replace_from (old new : string) (skip : nat) (s : string) : string :=
  match s with
  | EmptyString =>
      match old with
      | EmptyString => new
      | String _ _ => EmptyString
      end
  | String c s' =>
      match skip with
      | S k => replace_from old new k s'
      | O =>
          if String.prefix old s then
            match old with
            | EmptyString => new +:+ String c (replace_from old new 0 s')
            | String _ old' =>
                new +:+ replace_from old new (String.length old') s'
            end
          else String c (replace_from old new 0 s')
      end
  end.

Definition py_replace (s old new : string) : string := replace_from old new 0 s.

(** [old in s] *)
Fixpoint occurs (old s : string) : bool :=
  String.prefix old s ||
  match s with
  | EmptyString => false
  | String _ s' => occurs old s'
  end.

(** [os.remove(path)], on a disk that maps paths to file contents *)
Definition os_remove {X : Type} (path : string) (disk : gmap string X)
  : result (gmap string X) :=
  match disk !! path with
  | Some _ => Ok (delete path disk)
  | None => Raise FileNotFoundError
  end.

(** The GDAL and rasterio calls of [merge_raster_files], on a disk of files
    of contents [X]. *)
Class Gdal (F X : Type) : Type := {
  (** [gdal.BuildVRT(dest, sources, options=BuildVRTOptions(srcNodata))] *)
  gdal_BuildVRT : string → list string → value F → gmap string X →
                  result (gmap string X);
  (** [gdal.Translate(dest, source, options=TranslateOptions(noData))] *)
  gdal_Translate : string → string → value F → gmap string X →
                   result (gmap string X);
  (** [rasterio.open(path)]: [src.profile] and [src.read()] *)
  rio_read_all : gmap string X → string →
                 result (gmap string (value F) * ndarray F)
}.

Section MergeFiles.
Context {F X : Type} {gdal : Gdal F X}.

(** raster.py lines 147-165; the result is [None] unless [return_data]. *)
Definition merge_raster_files (paths : list string) (output_path : string)
    (nodata_value : value F) (return_data : bool) (disk : gmap string X)
  : result (option (ndarray F * gmap string (value F)) * gmap string X) :=
  let vrt_path := py_replace output_path ".tif" ".vrt" in
  disk ← gdal_BuildVRT vrt_path paths nodata_value disk;
  disk ← gdal_Translate output_path vrt_path nodata_value disk;
  disk ← os_remove vrt_path disk;
  if return_data then
    '(arr_profile, arr) ← rio_read_all disk output_path;
    Ok (Some (arr, arr_profile), disk)
  else Ok (None, disk).

End MergeFiles.

(** ** Tile lists for VRTs and tile indexes (create_dem_vrt.py) *)

(** A generator of paths, by what it yields when it is run to the end
    against the disk as it is at that moment. *)
Definition generator : Type := gmap string string → list string.

(** A generator that has been run to the end yields nothing more. *)
Definition exhausted : generator := λ _, [].

(** The calls of create_dem_vrt.py that leave Python: [Path.rglob], which
    walks the disk lazily, and [os.system], which runs a shell command. *)
Class Shell : Type := {
  rglob : string → string → generator;
  os_system : string → gmap string string → gmap string string
}.

(** The character ["\n"] *)
Definition newline : Ascii.ascii := Ascii.ascii_of_nat 10.

(** The text written by [f.writelines(f"{tile}\n" for tile in tiles)] *)
Definition tile_lines (tiles : list string) : string :=
  foldr (λ tile rest, tile +:+ String newline rest) "" tiles.

Section Vrt.
Context {shell : Shell}.

(** create_dem_vrt.py lines 5-25 *)
Definition find_tiles_for_vrt (source_dir pattern : string) : generator :=
  rglob source_dir pattern.

(** What [open(name, "w")] followed by [writelines] of the generator
    leaves on the disk: the file is created empty first, then the
    generator is run. *)
Definition write_tile_list (name : string) (tiles : generator)
    (disk : gmap string string) : gmap string string :=
  let disk := <[name := ""]> disk in
  <[name := tile_lines (tiles disk)]> disk.

(** create_dem_vrt.py lines 27-47; returns the generator as the call
    leaves it, and the disk. *)
Definition build_vrt (tiles : generator) (vrt_path : string) (run : bool)
    (disk : gmap string string) : result (generator * gmap string string) :=
  let disk := write_tile_list "vrt_temp.txt" tiles disk in
  let tiles := exhausted in
  if run then
    let disk :=
      os_system ("gdalbuildvrt -input_file_list vrt_temp.txt " +:+ vrt_path)
        disk in
    disk ← os_remove "vrt_temp.txt" disk;
    Ok (tiles, disk)
  else Ok (tiles, disk).

(** create_dem_vrt.py lines 49-69 *)
Definition build_tileindex (tiles : generator) (tindex_path : string)
    (run : bool) (disk : gmap string string)
  : result (generator * gmap string string) :=
  let disk := write_tile_list "tindex_temp.txt" tiles disk in
  let tiles := exhausted in
  if run then
    let disk :=
      os_system ("gdaltindex " +:+ tindex_path +:+ " --optfile tindex_temp.txt")
        disk in
    disk ← os_remove "tindex_temp.txt" disk;
    Ok (tiles, disk)
  else Ok (tiles, disk).

(** create_dem_vrt.py lines 71-81 *)
Definition create_glo30_dem_south_vrt (disk : gmap string string)
  : result (gmap string string) :=
  let SOURCE_DIR := "/g/data/v10/eoancillarydata-2/elevation/copernicus_30m_world" in
  let PATTERN := "Copernicus_DSM_COG_10_S??_00_????_00_DEM/*.tif" in
  let VRT_PATH := "/g/data/yp75/projects/ancillary/dem/copdem_south.vrt" in
  let tiles := find_tiles_for_vrt SOURCE_DIR PATTERN in
  '(_, disk) ← build_vrt tiles VRT_PATH true disk;
  Ok disk.

End Vrt.

(** The lines of a text, each ended by a newline; what follows the last
    newline is dropped. *)
Fixpoint text_lines (text : string) : list string :=
  match text with
  | EmptyString => []
  | String c text' =>
      if Ascii.eqb c newline then "" :: text_lines text'
      else match text_lines text' with
           | [] => []
           | line :: lines => String c line :: lines
           end
  end.

(** ** Reference instances of GDAL and of the shell

    Enough to run [merge_raster_files] and [build_vrt] on concrete disks:
    a VRT or GeoTIFF is stood for by the list of tiles mosaicked into it,
    and the shell only logs the command it is given. *)

Definition ref_BuildVRT (dest : string) (sources : list string)
    (nodata : value Q) (disk : gmap string (list string))
  : result (gmap string (list string)) :=
  Ok (<[dest := sources]> disk).

Definition ref_Translate (dest source : string) (nodata : value Q)
    (disk : gmap string (list string)) : result (gmap string (list string)) :=
  match disk !! source with
  | Some tiles => Ok (<[dest := tiles]> disk)
  | None => Ok disk
  end.

Definition ref_read_all (disk : gmap string (list string)) (path : string)
  : result (gmap string (value Q) * ndarray Q) :=
  match disk !! path with
  | Some _ => Ok (sample_profile, sample_raster)
  | None => Raise (ExternalError 2)
  end.

#[global] Instance reference_gdal : Gdal Q (list string) := {|
  gdal_BuildVRT := ref_BuildVRT;
  gdal_Translate := ref_Translate;
  rio_read_all := ref_read_all
|}.

#[global] Instance logging_shell : Shell := {|
  rglob source_dir pattern disk :=
    filter (λ path, String.prefix source_dir path = true)
           (fst <$> map_to_list disk);
  os_system command disk := <["shell.log" := command]> disk
|}.

(** A reference instance of the window calls, with windows kept in
    geographic units: the intersection is the overlapping rectangle and
    is refused when it is empty. *)
Definition ref_window_intersection (w1 w2 : bounds Q) : result (bounds Q) :=
  let hi (x y : Q) := if fltb x y then y else x in
  let lo (x y : Q) := if fltb x y then x else y in
  let w := Bounds (hi (min_x w1) (min_x w2)) (hi (min_y w1) (min_y w2))
                  (lo (max_x w1) (max_x w2)) (lo (max_y w1) (max_y w2)) in
  if fltb (min_x w) (max_x w) && fltb (min_y w) (max_y w) then Ok w
  else Raise (ExternalError 3).

#[global] Instance reference_windows
  : RasterioWindows Q (gmap string (ndarray Q * gmap string (value Q))) (bounds Q) := {|
  rio_open fs path :=
    '(arr, p, b) ← ref_read fs path;
    match p !! "transform" with
    | Some (VAffine t) => Ok (t, b, p)
    | _ => Raise (ExternalError 2)
    end;
  window_from_bounds b t := Ok b;
  window_intersection := ref_window_intersection;
  window_height w := VFloat ((max_y w - min_y w)%Q);
  window_width w := VFloat ((max_x w - min_x w)%Q);
  window_transform t w :=
    Affine (af_a t) (af_b t) (min_x w) (af_d t) (af_e t) (max_y w);
  rio_read_window fs path w :=
    '(arr, p, b) ← ref_read fs path; Ok (newaxis arr)
|}.

(** Whether a call returned rather than raised. *)
Definition returned {A : Type} (r : result A) : bool :=
  match r with
  | Ok _ => true
  | Raise _ => false
  end.

(** * Properties *)

(** ** Extent arithmetic over exact rationals *)

Section ExtentFacts.
Local Open Scope Q_scope.

Lemma fltb_Q_true (x y : Q) : fltb x y = true ↔ x < y.
Proof.
  cbn. rewrite Qlt_alt. destruct (x ?= y); split; congruence.
Qed.

Lemma fltb_Q_false (x y : Q) : fltb x y = false ↔ y <= x.
Proof.
  pose proof (fltb_Q_true x y) as Ht.
  split.
  - intros E. apply Qnot_lt_le. intros Hlt. apply Ht in Hlt. congruence.
  - intros Hle. destruct (fltb x y); [|reflexivity].
    exfalso. apply (Qle_not_lt _ _ Hle). now apply Ht.
Qed.

Lemma py_div_Q (x y : Q) : 0 < y → py_div x y = Ok (x / y).
Proof.
  intros Hy. unfold py_div. cbn.
  destruct (Qeq_bool y 0) eqn:E; [|reflexivity].
  apply Qeq_bool_iff in E. rewrite E in Hy. now apply Qlt_irrefl in Hy.
Qed.

Lemma fint_Q_nonneg (x : Q) : 0 <= x → fint x = Ok (Qfloor x).
Proof.
  intros Hx. destruct x as [n d]. cbn. f_equal.
  apply Z.quot_div_nonneg; [|reflexivity].
  unfold Qle in Hx. cbn in Hx. lia.
Qed.

Lemma fint_Q_integer (x : Q) (n : Z) : x == inject_Z n → fint x = Ok n.
Proof.
  intros Hx. destruct x as [m d]. cbn. f_equal.
  unfold Qeq in Hx. cbn in Hx. rewrite Z.mul_1_r in Hx. subst m.
  apply Z.quot_mul. discriminate.
Qed.

Lemma gap_quotient_nonneg (trg src res : Q) :
  0 < res → 0 <= Qabs (trg - src) / res.
Proof.
  intros Hres. apply Qle_shift_div_l; [assumption|].
  rewrite Qmult_0_l. apply Qabs_nonneg.
Qed.

(** The pixel count of one side is the floor of the gap in pixels. *)
Lemma new_pixels_Q (trg src res : Q) :
  0 < res → new_pixels trg src res = Ok (Qfloor (Qabs (trg - src) / res)).
Proof.
  intros Hres. unfold new_pixels.
  change (fabs (fsub trg src)) with (Qabs (trg - src)).
  rewrite py_div_Q by assumption. cbn [mbind result_bind].
  apply fint_Q_nonneg, gap_quotient_nonneg, Hres.
Qed.

Lemma floor_pixels_bounds (d res : Q) :
  0 < res → 0 <= d →
  let k := Qfloor (d / res) in
  (0 <= k)%Z ∧ inject_Z k * res <= d ∧ d < inject_Z k * res + res.
Proof.
  intros Hres Hd k. split; [|split].
  - rewrite <- (Qfloor_Z 0). apply Qfloor_resp_le. apply Qle_shift_div_l; [assumption|].
    now rewrite Qmult_0_l.
  - pose proof (Qfloor_le (d / res)) as Hk. fold k in Hk.
    apply (Qmult_le_r _ _ res) in Hk; [|assumption].
    assert (Hq : d / res * res == d) by (field; intros E; rewrite E in Hres; now apply Qlt_irrefl in Hres).
    now rewrite Hq in Hk.
  - pose proof (Qlt_floor (d / res)) as Hk. fold k in Hk.
    rewrite inject_Z_plus in Hk.
    apply (Qmult_lt_r _ _ res) in Hk; [|assumption].
    assert (Hq : d / res * res == d) by (field; intros E; rewrite E in Hres; now apply Qlt_irrefl in Hres).
    rewrite Hq in Hk.
    assert (Hr : (inject_Z k + inject_Z 1) * res == inject_Z k * res + res) by ring.
    now rewrite Hr in Hk.
Qed.

(** A side that grows downwards (left, bottom). *)
Lemma low_side (src trg res : Q) :
  0 < res →
  let k := Qfloor (Qabs (trg - src) / res) in
  let new := if fltb src trg then src else src - inject_Z k * res in
  new <= src ∧ (trg <= src → trg <= new ∧ new < trg + res) ∧
  (src < trg → new = src) ∧
  ∃ n : Z, (0 <= n)%Z ∧ new == src - inject_Z n * res.
Proof.
  intros Hres k new.
  destruct (floor_pixels_bounds (Qabs (trg - src)) res Hres (Qabs_nonneg _))
    as (Hk0 & Hlo & Hhi).
  fold k in Hk0, Hlo, Hhi.
  assert (Hm : 0 <= inject_Z k * res).
  { apply Qmult_le_0_compat; [|now apply Qlt_le_weak].
    change 0 with (inject_Z 0). now rewrite <- Zle_Qle. }
  subst new. destruct (fltb src trg) eqn:E.
  - apply fltb_Q_true in E. split; [|split; [|split]].
    + apply Qle_refl.
    + intros Hle. lra.
    + reflexivity.
    + exists 0%Z. split; [lia|]. ring.
  - apply fltb_Q_false in E.
    assert (Hd : Qabs (trg - src) == src - trg).
    { rewrite Qabs_neg by lra. ring. }
    set (m := inject_Z k * res) in *. split; [|split; [|split]].
    + lra.
    + intros Hle. split; lra.
    + intros Hlt. lra.
    + exists k. split; [assumption|]. reflexivity.
Qed.

(** A side that grows upwards, guarded as the right side is. *)
Lemma high_side (src trg res : Q) :
  0 < res →
  let k := Qfloor (Qabs (trg - src) / res) in
  let new := if fltb trg src then src else src + inject_Z k * res in
  src <= new ∧ (src <= trg → new <= trg ∧ trg < new + res) ∧
  (trg < src → new = src) ∧
  ∃ n : Z, (0 <= n)%Z ∧ new == src + inject_Z n * res.
Proof.
  intros Hres k new.
  destruct (floor_pixels_bounds (Qabs (trg - src)) res Hres (Qabs_nonneg _))
    as (Hk0 & Hlo & Hhi).
  fold k in Hk0, Hlo, Hhi.
  assert (Hm : 0 <= inject_Z k * res).
  { apply Qmult_le_0_compat; [|now apply Qlt_le_weak].
    change 0 with (inject_Z 0). now rewrite <- Zle_Qle. }
  subst new. destruct (fltb trg src) eqn:E.
  - apply fltb_Q_true in E. split; [|split; [|split]].
    + apply Qle_refl.
    + intros Hle. lra.
    + reflexivity.
    + exists 0%Z. split; [lia|]. ring.
  - apply fltb_Q_false in E.
    assert (Hd : Qabs (trg - src) == trg - src).
    { apply Qabs_pos. lra. }
    set (m := inject_Z k * res) in *. split; [|split; [|split]].
    + lra.
    + intros Hle. split; lra.
    + intros Hlt. lra.
    + exists k. split; [assumption|]. reflexivity.
Qed.

(** The top side as raster.py line 109 guards it: [src_top < trg_top]. *)
Lemma top_side (src trg res : Q) :
  0 < res →
  let k := Qfloor (Qabs (trg - src) / res) in
  let new := if fltb src trg then src else src + inject_Z k * res in
  src <= new ∧ ∃ n : Z, (0 <= n)%Z ∧ new == src + inject_Z n * res.
Proof.
  intros Hres k new.
  destruct (floor_pixels_bounds (Qabs (trg - src)) res Hres (Qabs_nonneg _))
    as (Hk0 & Hlo & Hhi).
  fold k in Hk0, Hlo, Hhi.
  assert (Hm : 0 <= inject_Z k * res).
  { apply Qmult_le_0_compat; [|now apply Qlt_le_weak].
    change 0 with (inject_Z 0). now rewrite <- Zle_Qle. }
  subst new. destruct (fltb src trg) eqn:E.
  - split; [apply Qle_refl|]. exists 0%Z. split; [lia|]. ring.
  - set (m := inject_Z k * res) in *. split; [lra|].
    exists k. split; [assumption|]. reflexivity.
Qed.

(** With positive pixel sizes the extent arithmetic never raises, and its
    result is the one written out here. *)
Lemma expand_extent_Q (tl tb tr tt sl sb sr st lon_res lat_res : Q) :
  0 < lon_res → 0 < lat_res →
  let kl := Qfloor (Qabs (tl - sl) / lon_res) in
  let kr := Qfloor (Qabs (tr - sr) / lon_res) in
  let kb := Qfloor (Qabs (tb - sb) / lat_res) in
  let kt := Qfloor (Qabs (tt - st) / lat_res) in
  let L := if fltb sl tl then sl else sl - inject_Z kl * lon_res in
  let R := if fltb tr sr then sr else sr + inject_Z kr * lon_res in
  let B := if fltb sb tb then sb else sb - inject_Z kb * lat_res in
  let T := if fltb st tt then st else st + inject_Z kt * lat_res in
  ∃ w h : Z,
    pixel_span R L lon_res = Ok w ∧ pixel_span T B lat_res = Ok h ∧
    expand_extent (Bounds tl tb tr tt) (Bounds sl sb sr st) lon_res lat_res
    = Ok (Expansion L B R T w h).
Proof.
  intros Hlon Hlat kl kr kb kt L R B T.
  assert (Hw : ∃ w, pixel_span R L lon_res = Ok w).
  { unfold pixel_span. change (fsub R L) with (R - L).
    rewrite py_div_Q by assumption. eexists. reflexivity. }
  assert (Hh : ∃ h, pixel_span T B lat_res = Ok h).
  { unfold pixel_span. change (fsub T B) with (T - B).
    rewrite py_div_Q by assumption. eexists. reflexivity. }
  destruct Hw as [w Hw], Hh as [h Hh]. exists w, h.
  split; [assumption|]. split; [assumption|].
  unfold expand_extent. rewrite !new_pixels_Q by assumption.
  cbn [mbind result_bind].
  fold kl kr kb kt.
  change (fsub sl (fmul (of_int kl) lon_res)) with (sl - inject_Z kl * lon_res).
  change (fadd sr (fmul (of_int kr) lon_res)) with (sr + inject_Z kr * lon_res).
  change (fsub sb (fmul (of_int kb) lat_res)) with (sb - inject_Z kb * lat_res).
  change (fadd st (fmul (of_int kt) lat_res)) with (st + inject_Z kt * lat_res).
  fold L R B T. rewrite Hw, Hh. reflexivity.
Qed.

End ExtentFacts.

(** ** [expand_raster_to_bounds]: pixel counts and bounds in any arithmetic *)

Section ExtentSteps.
Context {F : Type} {float_ops : PyFloat F}.

(** [int(abs(trg - src) / res)] returns exactly when the pixel size is not
    zero and [int] accepts the quotient. *)
Lemma new_pixels_Ok (trg src res : F) (n : Z) :
  new_pixels trg src res = Ok n ↔
  fis_zero res = false ∧ fint (fdiv (fabs (fsub trg src)) res) = Ok n.
Proof.
  unfold new_pixels, py_div. destruct (fis_zero res); cbn [mbind result_bind].
  - split; [discriminate | intros [Hz _]; discriminate Hz].
  - split; [auto | now intros [_ Hn]].
Qed.

Lemma pixel_span_Ok (hi lo res : F) (n : Z) :
  pixel_span hi lo res = Ok n ↔
  fis_zero res = false ∧ fint (fdiv (fsub hi lo) res) = Ok n.
Proof.
  unfold pixel_span, py_div. destruct (fis_zero res); cbn [mbind result_bind].
  - split; [discriminate | intros [Hz _]; discriminate Hz].
  - split; [auto | now intros [_ Hn]].
Qed.


End ExtentSteps.


(** Rounding can carry a bound past the target: on the call above the new
    left bound is -6.3000000000000007, below the target -6.3. *)
Remark expand_extent_passes_target_binary64 :
  (∃ g, expand_extent (Bounds (-6.3) 0 10 10) (Bounds (-2.9) 0 10 10) 0.1 0.1
          = Ok g ∧
        new_trg_left g = -6.3000000000000007 ∧
        PrimFloat.ltb (new_trg_left g) (-6.3) = true)%float.
Proof.
  eexists. split; [vm_compute; reflexivity|]. split; vm_compute; reflexivity.
Qed.

(** ** [expand_raster_to_bounds]: the expanded extent in exact arithmetic *)

Section ExpandedExtent.
Local Open Scope Q_scope.

(** In exact arithmetic, where nothing is rounded: with positive pixel
    sizes, each side's pixel count is the floor of
    [|target - source| / pixel_size] (the whole pixels that fit in the
    gap); the arithmetic never raises; the new extent contains the source
    bounds and every new bound is a whole number of pixels away from the
    source bound; and on the left, right and bottom sides, when the target
    lies at or beyond the source, the new bound stays within the target,
    less than one pixel short of it. *)
Lemma expand_extent_floor_superset (trg src : bounds Q) (lon_res lat_res : Q) :
  0 < lon_res → 0 < lat_res →
  (new_pixels (b_left trg) (b_left src) lon_res
     = Ok (Qfloor (Qabs (b_left trg - b_left src) / lon_res)) ∧
   new_pixels (b_right trg) (b_right src) lon_res
     = Ok (Qfloor (Qabs (b_right trg - b_right src) / lon_res)) ∧
   new_pixels (b_bottom trg) (b_bottom src) lat_res
     = Ok (Qfloor (Qabs (b_bottom trg - b_bottom src) / lat_res)) ∧
   new_pixels (b_top trg) (b_top src) lat_res
     = Ok (Qfloor (Qabs (b_top trg - b_top src) / lat_res))) ∧
  ∃ g, expand_extent trg src lon_res lat_res = Ok g ∧
    (new_trg_left g <= b_left src ∧ b_right src <= new_trg_right g ∧
     new_trg_bottom g <= b_bottom src ∧ b_top src <= new_trg_top g) ∧
    (∃ nl nr nb nt : Z,
       (0 <= nl)%Z ∧ (0 <= nr)%Z ∧ (0 <= nb)%Z ∧ (0 <= nt)%Z ∧
       new_trg_left g == b_left src - inject_Z nl * lon_res ∧
       new_trg_right g == b_right src + inject_Z nr * lon_res ∧
       new_trg_bottom g == b_bottom src - inject_Z nb * lat_res ∧
       new_trg_top g == b_top src + inject_Z nt * lat_res) ∧
    (b_left trg <= b_left src →
       b_left trg <= new_trg_left g ∧ new_trg_left g < b_left trg + lon_res) ∧
    (b_right src <= b_right trg →
       new_trg_right g <= b_right trg ∧ b_right trg < new_trg_right g + lon_res) ∧
    (b_bottom trg <= b_bottom src →
       b_bottom trg <= new_trg_bottom g ∧
       new_trg_bottom g < b_bottom trg + lat_res).
Proof.
  intros Hlon Hlat. split.
  - repeat split; now apply new_pixels_Q.
  - destruct trg as [tl tb tr tt], src as [sl sb sr st].
    destruct (expand_extent_Q tl tb tr tt sl sb sr st lon_res lat_res Hlon Hlat)
      as (w & h & _ & _ & Hg).
    eexists. split; [exact Hg|]. cbn [b_left b_right b_bottom b_top
      new_trg_left new_trg_right new_trg_bottom new_trg_top].
    destruct (low_side sl tl lon_res Hlon) as (HL1 & HL2 & _ & nl & Hnl & HL4).
    destruct (high_side sr tr lon_res Hlon) as (HR1 & HR2 & _ & nr & Hnr & HR4).
    destruct (low_side sb tb lat_res Hlat) as (HB1 & HB2 & _ & nb & Hnb & HB4).
    destruct (top_side st tt lat_res Hlat) as (HT1 & nt & Hnt & HT4).
    split; [auto|]. split; [|auto].
    exists nl, nr, nb, nt. auto 10.
Qed.

Lemma expand_extent_floor_superset_witness :
  0 < 1 ∧ ∃ g, expand_extent (Bounds (-3 # 2) 0 (25 # 2) 10) (Bounds 0 0 10 10) 1 1 = Ok g
               ∧ new_trg_left g <= 0 ∧ 10 <= new_trg_right g.
Proof.
  split; [reflexivity|].
  destruct (expand_extent_floor_superset
              (Bounds (-3 # 2) 0 (25 # 2) 10) (Bounds 0 0 10 10) 1 1)
    as (_ & g & Hg & (HL & HR & _) & _); [reflexivity | reflexivity |].
  exists g. auto.
Defined.


(** The three sides guarded in the direction of growth keep the source
    bound when the source already lies beyond the target. *)
Lemma expand_extent_keeps_left_right_bottom (trg src : bounds Q) (lon_res lat_res : Q) :
  0 < lon_res → 0 < lat_res →
  ∃ g, expand_extent trg src lon_res lat_res = Ok g ∧
    (b_left src < b_left trg → new_trg_left g = b_left src) ∧
    (b_right trg < b_right src → new_trg_right g = b_right src) ∧
    (b_bottom src < b_bottom trg → new_trg_bottom g = b_bottom src).
Proof.
  intros Hlon Hlat. destruct trg as [tl tb tr tt], src as [sl sb sr st].
  destruct (expand_extent_Q tl tb tr tt sl sb sr st lon_res lat_res Hlon Hlat)
    as (w & h & _ & _ & Hg).
  eexists. split; [exact Hg|]. cbn [b_left b_right b_bottom b_top
    new_trg_left new_trg_right new_trg_bottom new_trg_top].
  destruct (low_side sl tl lon_res Hlon) as (_ & _ & HL & _).
  destruct (high_side sr tr lon_res Hlon) as (_ & _ & HR & _).
  destruct (low_side sb tb lat_res Hlat) as (_ & _ & HB & _).
  auto.
Qed.

(** C4 at its failing input: the source top 10 already exceeds the target
    top 8, yet the new top is 12, two pixels above the source, in exact
    arithmetic and in binary64 alike. *)
Theorem expand_extent_top_guard_inverted :
  (∃ g, expand_extent (Bounds 0 0 10 8) (Bounds 0 0 10 10) 1 1 = Ok g ∧
        new_trg_top g == 12 ∧ ¬ new_trg_top g == 10 ∧ new_height g = 12%Z) ∧
  (∃ g, expand_extent (Bounds 0 0 10 8) (Bounds 0 0 10 10) 1 1 = Ok g ∧
        new_trg_top g = 12 ∧ new_height g = 12%Z)%float.
Proof.
  split.
  - eexists. split; [reflexivity|]. split; [reflexivity|]. split; [|reflexivity].
    cbn. discriminate.
  - eexists. split; [vm_compute; reflexivity|]. split; reflexivity.
Qed.

(** The mirror case of the same guard: a target top above the source top
    is not reached at all. *)
Lemma expand_extent_top_not_raised :
  ∃ g, expand_extent (Bounds 0 0 10 12) (Bounds 0 0 10 10) 1 1 = Ok g ∧
       new_trg_top g = 10 ∧ new_height g = 10%Z.
Proof. eexists. split; [reflexivity|]. split; reflexivity. Qed.

End ExpandedExtent.

(** ** [expand_raster_to_bounds]: width and height *)

Section PixelSpan.
Local Open Scope Q_scope.

Lemma pixel_span_exact_Q (hi lo res : Q) (n : Z) :
  0 < res → hi - lo == inject_Z n * res → pixel_span hi lo res = Ok n.
Proof.
  intros Hres Hn. unfold pixel_span. change (fsub hi lo) with (hi - lo).
  rewrite py_div_Q by assumption. cbn [mbind result_bind].
  apply fint_Q_integer. rewrite Hn. field.
  intros E. rewrite E in Hres. now apply Qlt_irrefl in Hres.
Qed.

(** In exact arithmetic the quotient of line 112 (and 113) is an integer
    whenever the source extent is a whole number of pixels, and the new
    width and height reproduce the new extent exactly. *)
Lemma expand_extent_exact_in_Q (trg src : bounds Q) (lon_res lat_res : Q)
    (width height : Z) :
  0 < lon_res → 0 < lat_res →
  b_right src - b_left src == inject_Z width * lon_res →
  b_top src - b_bottom src == inject_Z height * lat_res →
  ∃ g, expand_extent trg src lon_res lat_res = Ok g ∧
    inject_Z (new_width g) * lon_res == new_trg_right g - new_trg_left g ∧
    inject_Z (new_height g) * lat_res == new_trg_top g - new_trg_bottom g.
Proof.
  intros Hlon Hlat Hw Hh. destruct trg as [tl tb tr tt], src as [sl sb sr st].
  cbn [b_left b_right b_bottom b_top] in *.
  destruct (expand_extent_Q tl tb tr tt sl sb sr st lon_res lat_res Hlon Hlat)
    as (w & h & Hspw & Hsph & Hg).
  eexists. split; [exact Hg|]. cbn [new_width new_height
    new_trg_left new_trg_right new_trg_bottom new_trg_top].
  destruct (low_side sl tl lon_res Hlon) as (_ & _ & _ & nl & _ & HL).
  destruct (high_side sr tr lon_res Hlon) as (_ & _ & _ & nr & _ & HR).
  destruct (low_side sb tb lat_res Hlat) as (_ & _ & _ & nb & _ & HB).
  destruct (top_side st tt lat_res Hlat) as (_ & nt & _ & HT).
  cbv zeta in HL, HR, HB, HT.
  split.
  - rewrite (pixel_span_exact_Q _ _ _ (width + nl + nr)%Z Hlon) in Hspw.
    + injection Hspw as <-. rewrite HL, HR, !inject_Z_plus. lra.
    + rewrite HL, HR, !inject_Z_plus. lra.
  - rewrite (pixel_span_exact_Q _ _ _ (height + nb + nt)%Z Hlat) in Hsph.
    + injection Hsph as <-. rewrite HB, HT, !inject_Z_plus. lra.
    + rewrite HB, HT, !inject_Z_plus. lra.
Qed.

Lemma expand_extent_exact_in_Q_witness :
  ∃ g, expand_extent (Bounds (-3 # 2) 0 (25 # 2) 10) (Bounds 0 0 10 10) 1 1 = Ok g ∧
       inject_Z (new_width g) * 1 == new_trg_right g - new_trg_left g.
Proof.
  destruct (expand_extent_exact_in_Q
              (Bounds (-3 # 2) 0 (25 # 2) 10) (Bounds 0 0 10 10) 1 1 10 10)
    as (g & Hg & Hw & _); try reflexivity.
  exists g. auto.
Defined.

End PixelSpan.

(** C8 at its failing input, in binary64.  The source is a 3 x 3 raster
    with transform [Affine(0.1, 0, 100.0, 0, -0.1, -70.0)]; the target
    bounds are the raster's own bounds [(100.0, -70.3, 100.3, -70.0)].
    [(100.3 - 100.0) / 0.1] is 2.9999999999999716 and [int] truncates it:
    the new width and height are 2, and [new_width * pixel_size_x]
    misses the extent by a whole pixel, far more than 1e-9; the whole
    function, called with that profile alone, returns a fill array of
    shape [(1, 2, 2)]. *)
Theorem expand_extent_truncates_width_binary64 :
  (let t := Affine 0.1 0 100 0 (-0.1) (-70) in
   let src := north_up_bounds 3 3 t in
   src = Bounds 100 (-70.3) 100.3 (-70) ∧
   PrimFloat.div (100.3 - 100) 0.1 = 2.9999999999999716 ∧
   (∃ g, expand_extent (Bounds 100 (-70.3) 100.3 (-70)) src
           (fabs (af_a t)) (fabs (af_e t)) = Ok g ∧
         new_trg_left g = 100 ∧ new_trg_right g = 100.3 ∧
         new_width g = 2%Z ∧ new_height g = 2%Z ∧
         PrimFloat.ltb 1e-9
           (PrimFloat.abs (of_int (new_width g) * 0.1
                           - (new_trg_right g - new_trg_left g))) = true) ∧
   (∃ ta tp h' fs' arr,
      expand_raster_to_bounds (rasterio := reference_rasterio)
        (Bounds 100 (-70.3) 100.3 (-70)) "" (Some 0%nat) None 0 ""
        tenth_degree_store ∅ = Ok (ta, tp, h', fs') ∧
      h' !! ta = Some (OArray arr) ∧ shape arr = [1; 2; 2]%Z))%float.
Proof.
  cbv zeta. split; [vm_compute; reflexivity|]. split; [vm_compute; reflexivity|].
  split.
  - eexists. split; [vm_compute; reflexivity|].
    repeat split; vm_compute; reflexivity.
  - eexists _, _, _, _, _. split; [vm_compute; reflexivity|].
    split; reflexivity.
Qed.

(** ** Antimeridian check *)

Section Antimeridian.
Local Open Scope Q_scope.

(** C3.  A non-wrapping box spanning less than 180 degrees does not cross;
    a box encoded with [min_x > max_x] does; and the two boxes of
    [test_check_bounds_cross_antimeridian] give [False] and [True]. *)
Theorem check_bounds_cross_antimeridian_spec :
  (∀ b : bounds Q, min_x b <= max_x b → max_x b - min_x b < 180 →
     check_bounds_cross_antimeridian b = false) ∧
  (∀ b : bounds Q, max_x b < min_x b →
     check_bounds_cross_antimeridian b = true) ∧
  check_bounds_cross_antimeridian
    (Bounds 163.121597 (-78.632782) 172.382263 (-76.383263)) = false ∧
  check_bounds_cross_antimeridian
    (Bounds (-177.884048) (-78.176201) 178.838364 (-75.697151)) = true.
Proof.
  split; [|split; [|split]].
  - intros b Hle Hspan. unfold check_bounds_cross_antimeridian.
    apply orb_false_intro; apply fltb_Q_false; [assumption|].
    now apply Qlt_le_weak.
  - intros b Hlt. unfold check_bounds_cross_antimeridian.
    apply orb_true_intro. left. now apply fltb_Q_true.
  - reflexivity.
  - reflexivity.
Qed.

Lemma check_bounds_cross_antimeridian_spec_witness :
  check_bounds_cross_antimeridian (Bounds 10 (-80) 20 (-70)) = false ∧
  check_bounds_cross_antimeridian (Bounds 170 (-80) (-170) (-70)) = true.
Proof.
  destruct check_bounds_cross_antimeridian_spec as (Hno & Hyes & _).
  split; [apply Hno | apply Hyes]; cbn [b_left b_right]; lra.
Defined.

End Antimeridian.

(** ** The object store *)

Section StoreFacts.
Context {F : Type}.
Local Abbreviation heap := (list (object F)).
Local Abbreviation profile := (gmap string (value F)).

Lemma bind_Ok {A B : Type} (m : result A) (k : A → result B) (r : B) :
  m ≫= k = Ok r → ∃ a, m = Ok a ∧ k a = Ok r.
Proof. destruct m as [a|e]; cbn; [eauto | discriminate]. Qed.

Lemma get_dict_Ok (h : heap) (l : loc) (d : profile) :
  get_dict h l = Ok d ↔ h !! l = Some (ODict d).
Proof.
  unfold get_dict. destruct (h !! l) as [[d'|arr]|]; split; congruence.
Qed.

Lemma get_array_Ok (h : heap) (l : loc) (arr : ndarray F) :
  get_array h l = Ok arr ↔ h !! l = Some (OArray arr).
Proof.
  unfold get_array. destruct (h !! l) as [[d'|arr']|]; split; congruence.
Qed.

Lemma get_dict_app (h os : heap) (l : loc) (d : profile) :
  get_dict h l = Ok d → get_dict (h ++ os) l = Ok d.
Proof. rewrite !get_dict_Ok. apply lookup_app_l_Some. Qed.

Lemma get_array_app (h os : heap) (l : loc) (arr : ndarray F) :
  get_array h l = Ok arr → get_array (h ++ os) l = Ok arr.
Proof. rewrite !get_array_Ok. apply lookup_app_l_Some. Qed.

Lemma dict_getitem_app (h os : heap) (l : loc) (k : string) (v : value F) :
  dict_getitem h l k = Ok v → dict_getitem (h ++ os) l k = Ok v.
Proof.
  unfold dict_getitem. intros Hget.
  apply bind_Ok in Hget as (d & Hd & Hk).
  now rewrite (get_dict_app _ _ _ _ Hd).
Qed.

(** Writing to the newest dict leaves every older object alone. *)
Lemma dict_setitem_last (h : heap) (d : profile) (k : string) (v : value F) :
  dict_setitem (length h) k v (h ++ [ODict d]) = Ok (h ++ [ODict (<[k := v]> d)]).
Proof.
  unfold dict_setitem, get_dict.
  rewrite list_lookup_middle by reflexivity. cbn.
  f_equal. rewrite <- (Nat.add_0_r (length h)) at 1.
  now rewrite insert_app_r.
Qed.

Lemma mapM_get_array_Ok (h : heap) (arrays : list loc) (arrs : list (ndarray F)) :
  mapM (get_array h) arrays = Ok arrs →
  Forall2 (λ l arr, h !! l = Some (OArray arr)) arrays arrs.
Proof.
  revert arrs. induction arrays as [|l arrays IH]; intros arrs Hm; cbn in Hm.
  - injection Hm as <-. constructor.
  - apply bind_Ok in Hm as (arr & Harr & Hm).
    apply bind_Ok in Hm as (rest & Hrest & Hm).
    injection Hm as <-. constructor; [now apply get_array_Ok | now apply IH].
Qed.

Lemma mapM_get_dict_Ok (h : heap) (profiles : list loc) (profs : list profile) :
  mapM (get_dict h) profiles = Ok profs →
  Forall2 (λ l d, h !! l = Some (ODict d)) profiles profs.
Proof.
  revert profs. induction profiles as [|l profiles IH]; intros profs Hm; cbn in Hm.
  - injection Hm as <-. constructor.
  - apply bind_Ok in Hm as (d & Hd & Hm).
    apply bind_Ok in Hm as (rest & Hrest & Hm).
    injection Hm as <-. constructor; [now apply get_dict_Ok | now apply IH].
Qed.

Lemma mapM_get_array_app (h os : heap) (arrays : list loc) (arrs : list (ndarray F)) :
  mapM (get_array h) arrays = Ok arrs →
  mapM (get_array (h ++ os)) arrays = Ok arrs.
Proof.
  revert arrs. induction arrays as [|l arrays IH]; intros arrs Hm; cbn in Hm |- *.
  - assumption.
  - apply bind_Ok in Hm as (arr & Harr & Hm).
    apply bind_Ok in Hm as (rest & Hrest & Hm).
    rewrite (get_array_app _ _ _ _ Harr). cbn.
    now rewrite (IH _ Hrest).
Qed.

(** [len(set(...)) == 1] holds exactly when all entries agree. *)
Lemma one_dimensionality (ns : list nat) (n m : nat) :
  size (list_to_set ns : gset nat) = 1%nat → n ∈ ns → m ∈ ns → n = m.
Proof.
  intros Hsize Hn Hm.
  apply (size_singleton_inv (list_to_set ns : gset nat)); [assumption| |];
    now apply elem_of_list_to_set.
Qed.

Lemma one_dimensionality_all (ns : list nat) (n : nat) :
  ns ≠ [] → (∀ m, m ∈ ns → m = n) →
  size (list_to_set ns : gset nat) = 1%nat.
Proof.
  intros Hne Hall.
  assert (Heq : (list_to_set ns : gset nat) = {[ n ]}).
  { apply set_eq. intros m. rewrite elem_of_list_to_set, elem_of_singleton.
    split; [apply Hall|]. intros ->.
    destruct ns as [|m ns]; [congruence|].
    rewrite <- (Hall m); [left | left]. }
  rewrite Heq. apply size_singleton.
Qed.

End StoreFacts.

(** ** [merge_arrays_with_geometadata] *)

Section MergeFacts.
Context {F FS : Type} {float_ops : PyFloat F} {rasterio : Rasterio F FS}.
Local Abbreviation heap := (list (object F)).
Local Abbreviation profile := (gmap string (value F)).

(** What a successful run of the input checks establishes. *)
Lemma merge_inputs_Ok (arrays profiles : list loc) (h : heap)
    (datasets : list (profile * ndarray F)) :
  merge_inputs arrays profiles h = Ok datasets →
  ∃ (arrs : list (ndarray F)) (profs : list profile) (n : nat),
    mapM (get_array h) arrays = Ok arrs ∧
    mapM (get_dict h) profiles = Ok profs ∧
    arrays ≠ [] ∧ length arrays = length profiles ∧
    (n = 2 ∨ n = 3)%nat ∧ (∀ arr, arr ∈ arrs → ndim arr = n) ∧
    datasets = zip profs (if bool_decide (n = 2%nat) then newaxis <$> arrs else arrs).
Proof.
  unfold merge_inputs. intros Hrun.
  apply bind_Ok in Hrun as (a0 & Ha0 & Hrun).
  apply bind_Ok in Hrun as (arr0 & Harr0 & Hrun).
  cbv zeta in Hrun.
  destruct (bool_decide (length (shape arr0) ∈ [2; 3]%nat)) eqn:Hdim;
    [|discriminate]. cbn [negb] in Hrun.
  apply bind_Ok in Hrun as (arrs & Harrs & Hrun).
  destruct (bool_decide (size (list_to_set (ndim <$> arrs) : gset nat) = 1%nat))
    eqn:Hone; [|discriminate]. cbn [negb] in Hrun.
  destruct (bool_decide (length arrays = length profiles)) eqn:Hlen;
    [|discriminate]. cbn [negb] in Hrun.
  apply bind_Ok in Hrun as (profs & Hprofs & Hrun).
  injection Hrun as <-.
  apply bool_decide_eq_true in Hdim, Hone, Hlen.
  exists arrs, profs, (length (shape arr0)).
  split; [assumption|]. split; [assumption|].
  assert (Hin0 : arr0 ∈ arrs).
  { pose proof (mapM_get_array_Ok _ _ _ Harrs) as Hall.
    unfold py_getitem in Ha0. destruct arrays as [|l arrays]; [discriminate|].
    cbn in Ha0. injection Ha0 as ->.
    inversion Hall as [|? arr1 ? ? Hl Hrest]; subst.
    apply get_array_Ok in Harr0. rewrite Harr0 in Hl. injection Hl as <-. left. }
  split; [|split; [assumption|split; [|split; [|reflexivity]]]].
  - intros ->. discriminate.
  - rewrite !elem_of_cons, elem_of_nil in Hdim. tauto.
  - intros arr Harr. apply (one_dimensionality (ndim <$> arrs)); [assumption| |].
    + now apply list_elem_of_fmap_2.
    + now apply (list_elem_of_fmap_2 ndim) in Hin0.
Qed.

(** The merged profile is one new dict at the end of the store. *)
Lemma merged_profile_Ok (p0 : loc) (merged_arr : ndarray F)
    (merged_trans : affine F) (nodata dtype : value F) (h h' : heap) (lp : loc) :
  merged_profile p0 merged_arr merged_trans nodata dtype h = Ok (lp, h') →
  ∃ (d : profile) (count height width : Z),
    get_dict h p0 = Ok d ∧
    shape merged_arr !! 0%nat = Some count ∧
    shape merged_arr !! 1%nat = Some height ∧
    shape merged_arr !! 2%nat = Some width ∧
    lp = length h ∧
    h' = h ++ [ODict (merged_items d merged_trans count height width nodata dtype)].
Proof.
  unfold merged_profile, dict_copy, alloc, py_getitem. intros Hrun.
  destruct (get_dict h p0) as [d|] eqn:Hd; [|discriminate]. cbn in Hrun.
  rewrite dict_setitem_last in Hrun. cbn in Hrun.
  destruct (shape merged_arr !! 0%nat) as [count|]; [|discriminate]. cbn in Hrun.
  rewrite dict_setitem_last in Hrun. cbn in Hrun.
  destruct (shape merged_arr !! 1%nat) as [height|]; [|discriminate]. cbn in Hrun.
  rewrite dict_setitem_last in Hrun. cbn in Hrun.
  destruct (shape merged_arr !! 2%nat) as [width|]; [|discriminate]. cbn in Hrun.
  rewrite dict_setitem_last in Hrun. cbn in Hrun.
  exists d, count, height, width. unfold merged_items.
  destruct (is_none nodata), (is_none dtype); cbn in Hrun;
    rewrite ?dict_setitem_last in Hrun; cbn in Hrun;
    rewrite ?dict_setitem_last in Hrun; cbn in Hrun;
    injection Hrun as <- <-; auto 10.
Qed.

Lemma merged_items_frame (p0 : profile) (merged_trans : affine F)
    (count height width : Z) (nodata dtype : value F) (k : string) :
  k ∉ ["transform"; "count"; "height"; "width"; "nodata"; "dtype"]%string →
  merged_items p0 merged_trans count height width nodata dtype !! k = p0 !! k.
Proof.
  intros Hk. rewrite !not_elem_of_cons in Hk.
  destruct Hk as (? & ? & ? & ? & ? & ? & _).
  unfold merged_items.
  destruct (is_none nodata), (is_none dtype);
    now rewrite ?lookup_insert_ne by congruence.
Qed.

Lemma merged_items_overrides (p0 : profile) (merged_trans : affine F)
    (count height width : Z) (nodata dtype : value F) :
  let p := merged_items p0 merged_trans count height width nodata dtype in
  p !! "transform"%string = Some (VAffine merged_trans) ∧
  p !! "count"%string = Some (VInt count) ∧
  p !! "height"%string = Some (VInt height) ∧
  p !! "width"%string = Some (VInt width) ∧
  p !! "nodata"%string
    = (if is_none nodata then p0 !! "nodata"%string else Some nodata) ∧
  p !! "dtype"%string
    = (if is_none dtype then p0 !! "dtype"%string else Some dtype).
Proof.
  unfold merged_items.
  destruct (is_none nodata), (is_none dtype); cbv zeta;
    repeat split;
    repeat (first [ rewrite lookup_insert_eq; reflexivity
                  | rewrite lookup_insert_ne by discriminate ]);
    reflexivity.
Qed.

(** A successful merge appends the merged array and the merged profile
    to the store and touches nothing else. *)
Lemma merge_appends (arrays profiles : list loc)
    (resampling : string) (nodata dtype : value F) (method : string)
    (h h' : heap) (la lp : loc) :
  merge_arrays_with_geometadata arrays profiles resampling nodata dtype method h
    = Ok (la, lp, h') →
  ∃ (merged_arr : ndarray F) (p' : profile),
    la = length h ∧ lp = S (length h) ∧ h' = h ++ [OArray merged_arr; ODict p'].
Proof.
  unfold merge_arrays_with_geometadata. intros Hrun.
  apply bind_Ok in Hrun as (datasets & Hin & Hrun).
  apply bind_Ok in Hrun as ([merged_arr merged_trans] & Hmerge & Hrun).
  cbn [alloc] in Hrun.
  apply bind_Ok in Hrun as (l0 & Hl0 & Hrun).
  apply bind_Ok in Hrun as ([lp' h2] & Hprof & Hrun).
  injection Hrun as <- <- <-.
  apply merged_profile_Ok in Hprof as (d & c & hh & w & _ & _ & _ & _ & -> & ->).
  eexists merged_arr, _.
  rewrite length_app, Nat.add_1_r, <- app_assoc. cbn [app]. auto.
Qed.

(** C10.  A successful merge returns two new objects appended to the
    store: the merged array and a copy of [profiles[0]] in which
    [transform], [count], [height] and [width] are replaced, [nodata] and
    [dtype] only when the argument is not [None]; every other key keeps
    the value of [profiles[0]], and every object that was in the store,
    arrays and profiles alike, is unchanged. *)
Theorem merge_returns_updated_copy (arrays profiles : list loc)
    (resampling : string) (nodata dtype : value F) (method : string)
    (h h' : heap) (la lp : loc) :
  merge_arrays_with_geometadata arrays profiles resampling nodata dtype method h
    = Ok (la, lp, h') →
  ∃ (l0 : loc) (p0 p' : profile) (merged_arr : ndarray F)
    (merged_trans : affine F) (count height width : Z),
    profiles !! 0%nat = Some l0 ∧ h !! l0 = Some (ODict p0) ∧
    shape merged_arr !! 0%nat = Some count ∧
    shape merged_arr !! 1%nat = Some height ∧
    shape merged_arr !! 2%nat = Some width ∧
    la = length h ∧ lp = S (length h) ∧
    h' = h ++ [OArray merged_arr; ODict p'] ∧
    p' !! "transform"%string = Some (VAffine merged_trans) ∧
    p' !! "count"%string = Some (VInt count) ∧
    p' !! "height"%string = Some (VInt height) ∧
    p' !! "width"%string = Some (VInt width) ∧
    p' !! "nodata"%string
      = (if is_none nodata then p0 !! "nodata"%string else Some nodata) ∧
    p' !! "dtype"%string
      = (if is_none dtype then p0 !! "dtype"%string else Some dtype) ∧
    (∀ k : string,
       k ∉ ["transform"; "count"; "height"; "width"; "nodata"; "dtype"]%string →
       p' !! k = p0 !! k) ∧
    (∀ (l : loc) (o : object F), h !! l = Some o → h' !! l = Some o).
Proof.
  unfold merge_arrays_with_geometadata. intros Hrun.
  apply bind_Ok in Hrun as (datasets & Hin & Hrun).
  apply bind_Ok in Hrun as ([merged_arr merged_trans] & Hmerge & Hrun).
  cbn [alloc] in Hrun.
  apply bind_Ok in Hrun as (l0 & Hl0 & Hrun).
  apply bind_Ok in Hrun as ([lp' h2] & Hprof & Hrun).
  injection Hrun as <- <- <-.
  apply merged_profile_Ok in Hprof
    as (d & count & height & width & Hd & Hc & Hh & Hw & -> & ->).
  apply merge_inputs_Ok in Hin
    as (arrs & profs & n & _ & Hprofs & _ & _ & _ & _ & _).
  unfold py_getitem in Hl0.
  destruct (profiles !! 0%nat) as [l0'|] eqn:Hp0; [|discriminate].
  injection Hl0 as ->.
  assert (Hd0 : h !! l0 = Some (ODict d)).
  { pose proof (mapM_get_dict_Ok _ _ _ Hprofs) as Hall.
    destruct profiles as [|l profiles]; [discriminate|].
    cbn in Hp0. injection Hp0 as ->.
    inversion Hall as [|? d0 ? ? Hl Hrest]; subst.
    apply get_dict_Ok in Hd.
    rewrite (lookup_app_l_Some _ _ _ _ Hl) in Hd. congruence. }
  destruct (merged_items_overrides d merged_trans count height width nodata dtype)
    as (Ht & Hco & Hhe & Hwi & Hno & Hdt).
  exists l0, d, (merged_items d merged_trans count height width nodata dtype),
    merged_arr, merged_trans, count, height, width.
  rewrite length_app, Nat.add_1_r, <- app_assoc. cbn [app].
  repeat (split; [first [assumption | reflexivity]|]).
  split.
  - intros k Hk. now apply merged_items_frame.
  - intros l o Hl. now apply lookup_app_l_Some.
Qed.

(** Inputs that break a precondition are turned away by the checks of
    lines 178-189, each with [ValueError]. *)
Lemma merge_inputs_rejects (arrays profiles : list loc) (h : heap)
    (arrs : list (ndarray F)) :
  arrays ≠ [] →
  mapM (get_array h) arrays = Ok arrs →
  (∃ arr, arr ∈ arrs ∧ ndim arr ≠ 2%nat ∧ ndim arr ≠ 3%nat) ∨
  (∃ a b, a ∈ arrs ∧ b ∈ arrs ∧ ndim a ≠ ndim b) ∨
  length arrays ≠ length profiles →
  merge_inputs arrays profiles h = Raise ValueError.
Proof.
  intros Hne Harrs Hbad. unfold merge_inputs.
  pose proof (mapM_get_array_Ok _ _ _ Harrs) as Hall.
  destruct arrays as [|a0 arrays]; [congruence|].
  inversion Hall as [|? arr0 ? arrs' Ha0 Hrest]; subst.
  cbn [py_getitem lookup list_lookup mbind result_bind].
  apply get_array_Ok in Ha0 as Hget. rewrite Hget. cbn [mbind result_bind].
  cbv zeta.
  destruct (bool_decide (length (shape arr0) ∈ [2; 3]%nat)) eqn:Hdim;
    [|reflexivity]. cbn [negb].
  rewrite Harrs. cbn [mbind result_bind].
  destruct (bool_decide (size (list_to_set (ndim <$> arr0 :: arrs') : gset nat)
                         = 1%nat)) eqn:Hone; [|reflexivity]. cbn [negb].
  destruct (bool_decide (length (a0 :: arrays) = length profiles)) eqn:Hlen;
    [|reflexivity]. exfalso.
  apply bool_decide_eq_true in Hdim, Hone, Hlen.
  rewrite !elem_of_cons, elem_of_nil in Hdim.
  assert (Hsame : ∀ arr, arr ∈ arr0 :: arrs' → ndim arr = ndim arr0).
  { intros arr Harr. apply (one_dimensionality (ndim <$> arr0 :: arrs'));
      [assumption| |]; apply list_elem_of_fmap_2; [assumption | left]. }
  destruct Hbad as [(arr & Harr & H2 & H3) | [(a & b & Ha & Hb & Hab) | Hl]].
  - apply Hsame in Harr. unfold ndim in *. lia.
  - apply Hsame in Ha, Hb. congruence.
  - contradiction.
Qed.

(** With an empty list of arrays the very first line, [arrays[0]] (line
    177), raises [IndexError], whatever the profiles and the other
    arguments are: the length check of lines 188-189 is never reached. *)
Lemma merge_empty_arrays_any_profiles (profiles : list loc)
    (resampling : string) (nodata dtype : value F) (method : string) (h : heap) :
  merge_arrays_with_geometadata [] profiles resampling nodata dtype method h
    = Raise IndexError.
Proof. reflexivity. Qed.

(** For a non-empty list of arrays, a merge is
    refused with [ValueError] whenever some array is neither 2-D nor 3-D,
    or two arrays differ in dimensionality, or [len(arrays) !=
    len(profiles)]; and 2-D arrays that pass the checks reach the merge
    with a leading band axis of length 1. *)
Lemma merge_rejects_mismatched_inputs (arrays profiles : list loc)
    (resampling : string) (nodata dtype : value F) (method : string)
    (h : heap) (arrs : list (ndarray F)) :
  arrays ≠ [] →
  mapM (get_array h) arrays = Ok arrs →
  ((∃ arr, arr ∈ arrs ∧ ndim arr ≠ 2%nat ∧ ndim arr ≠ 3%nat) ∨
   (∃ a b, a ∈ arrs ∧ b ∈ arrs ∧ ndim a ≠ ndim b) ∨
   length arrays ≠ length profiles →
   merge_arrays_with_geometadata arrays profiles resampling nodata dtype method h
     = Raise ValueError) ∧
  ((∀ arr, arr ∈ arrs → ndim arr = 2%nat) →
   length arrays = length profiles →
   ∀ profs, mapM (get_dict h) profiles = Ok profs →
     merge_inputs arrays profiles h = Ok (zip profs (newaxis <$> arrs)) ∧
     (∀ arr, arr ∈ newaxis <$> arrs →
        ndim arr = 3%nat ∧ shape arr !! 0%nat = Some 1%Z)).
Proof.
  intros Hne Harrs. split.
  - intros Hbad. unfold merge_arrays_with_geometadata.
    now rewrite (merge_inputs_rejects arrays profiles h arrs).
  - intros Hall Hlen profs Hprofs. split.
    + unfold merge_inputs.
      pose proof (mapM_get_array_Ok _ _ _ Harrs) as HF.
      destruct arrays as [|a0 arrays]; [congruence|].
      inversion HF as [|? arr0 ? arrs' Ha0 Hrest]; subst.
      cbn [py_getitem lookup list_lookup mbind result_bind].
      apply get_array_Ok in Ha0 as Hget. rewrite Hget. cbn [mbind result_bind].
      cbv zeta.
      assert (Hdim0 : ndim arr0 = 2%nat) by (apply Hall; left).
      unfold ndim in Hdim0. rewrite Hdim0.
      rewrite (bool_decide_eq_true_2 (2%nat ∈ [2; 3]%nat)) by left.
      cbn [negb]. rewrite Harrs. cbn [mbind result_bind].
      rewrite bool_decide_eq_true_2.
      2:{ apply (one_dimensionality_all _ 2%nat); [discriminate|].
          intros m Hm. apply list_elem_of_fmap in Hm as (arr & -> & Harr).
          now apply Hall. }
      cbn [negb]. rewrite (bool_decide_eq_true_2 (2%nat = 2%nat)) by reflexivity.
      rewrite bool_decide_eq_true_2 by assumption. cbn [negb].
      rewrite Hprofs. reflexivity.
    + intros arr Harr. apply list_elem_of_fmap in Harr as (arr' & -> & Harr').
      apply Hall in Harr'. unfold ndim, newaxis in *. cbn. auto.
Qed.

End MergeFacts.

(** ** [expand_raster_to_bounds]: arguments, sources and the store *)

Section ExpandFacts.
Context {F FS : Type} {float_ops : PyFloat F} {rasterio : Rasterio F FS}.
Local Abbreviation heap := (list (object F)).
Local Abbreviation profile := (gmap string (value F)).

Lemma non_empty_true (s : string) : non_empty s = true ↔ s ≠ ""%string.
Proof.
  unfold non_empty. rewrite negb_true_iff, bool_decide_eq_false. reflexivity.
Qed.

Lemma non_empty_false (s : string) : non_empty s = false ↔ s = ""%string.
Proof.
  unfold non_empty. rewrite negb_false_iff, bool_decide_eq_true. reflexivity.
Qed.

(** The [assert] of lines 76-77 fails exactly when there is neither a path
    nor a non-empty profile. *)
Lemma check_source_arguments_fails (src_path : string)
    (src_profile src_array : option loc) (h : heap) :
  check_source_arguments src_path src_profile src_array h = Raise AssertionError
  ↔ src_path = ""%string ∧
    (src_profile = None ∨
     ∃ l, src_profile = Some l ∧ h !! l = Some (ODict (∅ : profile))).
Proof.
  unfold check_source_arguments, profile_truthy.
  destruct (non_empty src_path) eqn:Hpath.
  - apply non_empty_true in Hpath. split; [discriminate | tauto].
  - apply non_empty_false in Hpath. destruct src_profile as [l|].
    + unfold get_dict. destruct (h !! l) as [[d|arr]|] eqn:Hl; cbn.
      * destruct (bool_decide (d = ∅)) eqn:Hd; cbn.
        -- apply bool_decide_eq_true in Hd. subst d. split; [|reflexivity].
           intros _. split; [assumption|]. right. eauto.
        -- apply bool_decide_eq_false in Hd.
           rewrite orb_true_r. split; [discriminate|].
           intros (_ & [Hnone | (l' & Hl' & Hempty)]); [discriminate|].
           injection Hl' as <-. congruence.
      * split; [discriminate|].
        intros (_ & [Hnone | (l' & Hl' & Hempty)]); [discriminate|].
        injection Hl' as <-. congruence.
      * split; [discriminate|].
        intros (_ & [Hnone | (l' & Hl' & Hempty)]); [discriminate|].
        injection Hl' as <-. congruence.
    + cbn. split; [|reflexivity]. intros _. split; [assumption | now left].
Qed.

Lemma check_source_arguments_passes (src_path : string)
    (src_profile src_array : option loc) (h : heap) :
  (src_path ≠ ""%string →
   check_source_arguments src_path src_profile src_array h = Ok tt) ∧
  (∀ l (d : profile), src_profile = Some l → h !! l = Some (ODict d) → d ≠ ∅ →
   check_source_arguments src_path src_profile src_array h = Ok tt).
Proof.
  unfold check_source_arguments, profile_truthy. split.
  - intros Hpath. apply non_empty_true in Hpath. now rewrite Hpath.
  - intros l d -> Hl Hd. destruct (non_empty src_path); [reflexivity|].
    apply get_dict_Ok in Hl. rewrite Hl. cbn.
    rewrite bool_decide_eq_false_2 by assumption. cbn.
    now rewrite orb_true_r.
Qed.

(** C6, as the code has it.  The call is refused with [AssertionError]
    exactly when [src_path] is empty and [src_profile] is [None] or an
    empty dict, whatever [src_array] is; a non-empty [src_path] passes
    the check whatever else is supplied, and so does a non-empty profile
    without an array. *)
Theorem expand_raster_to_bounds_argument_check (trg_bounds : bounds F)
    (src_path : string) (src_profile src_array : option loc) (fill_value : F)
    (save_path : string) (h : heap) (fs : FS) :
  (src_path = ""%string →
   src_profile = None ∨
   (∃ l, src_profile = Some l ∧ h !! l = Some (ODict (∅ : profile))) →
   expand_raster_to_bounds trg_bounds src_path src_profile src_array
     fill_value save_path h fs = Raise AssertionError) ∧
  (check_source_arguments src_path src_profile src_array h = Raise AssertionError →
   src_path = ""%string ∧
   (src_profile = None ∨
    ∃ l, src_profile = Some l ∧ h !! l = Some (ODict (∅ : profile)))) ∧
  (src_path ≠ ""%string →
   check_source_arguments src_path src_profile src_array h = Ok tt) ∧
  (∀ l (d : profile), src_profile = Some l → h !! l = Some (ODict d) → d ≠ ∅ →
   check_source_arguments src_path src_profile src_array h = Ok tt).
Proof.
  split; [|split].
  - intros Hpath Hprof. unfold expand_raster_to_bounds.
    assert (Hfail : check_source_arguments src_path src_profile src_array h
                    = Raise AssertionError)
      by (apply check_source_arguments_fails; auto).
    now rewrite Hfail.
  - apply check_source_arguments_fails.
  - apply check_source_arguments_passes.
Qed.

(** Where the source comes from (lines 79-86). *)
Lemma resolve_source_Ok (src_path : string) (src_profile src_array : option loc)
    (h h1 : heap) (fs : FS) (lp : loc) (sa : option loc) (b : bounds F) :
  resolve_source src_path src_profile src_array h fs = Ok (lp, sa, b, h1) →
  (src_path ≠ ""%string ∧
   ∃ arr prof, rio_read fs src_path = Ok (arr, prof, b) ∧
     h1 = h ++ [OArray arr; ODict prof] ∧
     sa = Some (length h) ∧ lp = S (length h)) ∨
  (src_path = ""%string ∧ src_profile = Some lp ∧ sa = src_array ∧ h1 = h).
Proof.
  unfold resolve_source. destruct (non_empty src_path) eqn:Hpath; intros Hrun.
  - left. apply non_empty_true in Hpath. split; [assumption|].
    apply bind_Ok in Hrun as ([[arr prof] b'] & Hread & Hrun).
    cbn [alloc] in Hrun. injection Hrun as <- <- <- <-.
    exists arr, prof.
    rewrite length_app, Nat.add_1_r, <- app_assoc. cbn [app]. auto.
  - right. apply non_empty_false in Hpath. split; [assumption|].
    destruct src_profile as [lp'|]; [|discriminate].
    cbn [mbind result_bind] in Hrun.
    apply bind_Ok in Hrun as (height & _ & Hrun).
    apply bind_Ok in Hrun as (width & _ & Hrun).
    apply bind_Ok in Hrun as (transform & _ & Hrun).
    apply bind_Ok in Hrun as (b' & _ & Hrun).
    injection Hrun as <- <- <- <-. auto.
Qed.

(** The fill profile and the fill array (lines 88-125) are two new
    objects; the source profile is read, never written. *)
Lemma build_fill_Ok (trg_bounds src_bounds : bounds F) (lp : loc)
    (fill_value : F) (h h' : heap) (lfa lfp : loc) :
  build_fill trg_bounds src_bounds lp fill_value h = Ok (lfa, lfp, h') →
  ∃ (p : profile) (t : affine F) (g : expansion F) (dt : value F)
    (fill : ndarray F),
    h !! lp = Some (ODict p) ∧
    p !! "transform"%string = Some (VAffine t) ∧
    expand_extent trg_bounds src_bounds (fabs (af_a t)) (fabs (af_e t)) = Ok g ∧
    p !! "dtype"%string = Some dt ∧
    np_full [1%Z; new_height g; new_width g] fill_value dt = Ok fill ∧
    lfp = length h ∧ lfa = S (length h) ∧
    h' = h ++ [ODict (fill_items p (new_width g) (new_height g)
                        (from_origin (new_trg_left g) (new_trg_top g)
                           (fabs (af_a t)) (fabs (af_e t))));
               OArray fill].
Proof.
  unfold build_fill. intros Hrun.
  apply bind_Ok in Hrun as (t & Ht & Hrun).
  apply bind_Ok in Ht as (tv & Htv & Ht).
  destruct tv; try discriminate. injection Ht as ->.
  unfold dict_getitem in Htv.
  apply bind_Ok in Htv as (p & Hp & Htv).
  destruct (p !! "transform"%string) as [v|] eqn:Hpt; [|discriminate].
  injection Htv as ->.
  apply bind_Ok in Hrun as (g & Hg & Hrun).
  cbv zeta in Hrun. unfold dict_copy, alloc in Hrun.
  rewrite Hp in Hrun. cbn [mbind result_bind] in Hrun.
  rewrite !dict_setitem_last in Hrun. cbn [mbind result_bind] in Hrun.
  rewrite !dict_setitem_last in Hrun. cbn [mbind result_bind] in Hrun.
  rewrite !dict_setitem_last in Hrun. cbn [mbind result_bind] in Hrun.
  apply bind_Ok in Hrun as (dt & Hdt & Hrun).
  unfold dict_getitem in Hdt. rewrite (get_dict_app _ _ _ _ Hp) in Hdt.
  cbn [mbind result_bind] in Hdt.
  destruct (p !! "dtype"%string) as [v|] eqn:Hpd; [|discriminate].
  injection Hdt as ->.
  apply bind_Ok in Hrun as (fill & Hfill & Hrun).
  injection Hrun as <- <- <-.
  exists p, t, g, dt, fill. apply get_dict_Ok in Hp.
  rewrite length_app, Nat.add_1_r, <- app_assoc. cbn [app].
  unfold fill_items. auto 10.
Qed.




(** A band read from a file is 2-D and the fill array is 3-D, so the
    merge of lines 129-136 is refused by its own dimensionality check:
    with a [src_path] the function never returns. *)
Lemma expand_raster_to_bounds_from_path_never_returns
    (trg_bounds : bounds F) (src_path : string)
    (src_profile src_array : option loc) (fill_value : F) (save_path : string)
    (h : heap) (fs : FS) :
  (∀ fs path arr prof b, rio_read fs path = Ok (arr, prof, b) → ndim arr = 2%nat) →
  (∀ shp v dt arr, np_full shp v dt = Ok arr → shape arr = shp) →
  src_path ≠ ""%string →
  ∀ r, expand_raster_to_bounds trg_bounds src_path src_profile src_array
         fill_value save_path h fs ≠ Ok r.
Proof.
  intros Hread Hfull Hpath [[[ta tp] h'] fs'] Hrun.
  unfold expand_raster_to_bounds in Hrun.
  apply bind_Ok in Hrun as ([] & _ & Hrun).
  apply bind_Ok in Hrun as ([[[lp sa] b] h1] & Hsrc & Hrun).
  apply resolve_source_Ok in Hsrc
    as [(_ & arr & prof & Hrd & -> & -> & ->) | (Hempty & _)]; [|congruence].
  apply bind_Ok in Hrun as ([[lfa lfp] h2] & Hfill & Hrun).
  apply build_fill_Ok in Hfill
    as (p & t & g & dt & fill & _ & _ & _ & _ & Hnp & -> & -> & ->).
  apply bind_Ok in Hrun as ([[ta' tp'] h3] & Hmerge & _).
  apply bind_Ok in Hmerge as (nodata & _ & Hmerge).
  apply bind_Ok in Hmerge as (dtype & _ & Hmerge).
  unfold merge_arrays_with_geometadata in Hmerge.
  apply bind_Ok in Hmerge as (datasets & Hin & _).
  apply merge_inputs_Ok in Hin
    as (arrs & profs & n & Harrs & _ & _ & _ & _ & Hsame & _).
  apply mapM_get_array_Ok in Harrs.
  inversion Harrs as [|? a1 ? arrs1 Hl1 Hrest1]; subst.
  inversion Hrest1 as [|? a2 ? arrs2 Hl2 Hrest2]; subst.
  rewrite <- app_assoc in Hl1, Hl2. cbn [app] in Hl1, Hl2.
  rewrite list_lookup_middle in Hl1 by reflexivity. injection Hl1 as <-.
  rewrite length_app, Nat.add_comm in Hl2. cbn [length Nat.add] in Hl2.
  change (S (S (S (length h)))) with (3 + length h)%nat in Hl2.
  rewrite Nat.add_comm, lookup_app_r in Hl2 by lia.
  replace (length h + 3 - length h)%nat with 3%nat in Hl2 by lia.
  cbn in Hl2. injection Hl2 as <-.
  assert (H2 : ndim arr = n) by (apply Hsame; left).
  assert (H3 : ndim fill = n) by (apply Hsame; right; left).
  apply Hread in Hrd. apply Hfull in Hnp.
  unfold ndim in *. rewrite Hnp in H3. cbn in H3. congruence.
Qed.

End ExpandFacts.

(** ** Concrete runs, on the reference instance over exact rationals *)

Section Runs.
Local Open Scope Q_scope.
Local Abbreviation run_merge :=
  (merge_arrays_with_geometadata (F := Q) (rasterio := reference_rasterio)).
Local Abbreviation run_expand :=
  (expand_raster_to_bounds (F := Q) (rasterio := reference_rasterio)).

Lemma merge_returns_updated_copy_witness :
  ∃ la lp h',
    run_merge [0%nat] [1%nat] "bilinear" VNone (VStr "int16") "first" sample_store
      = Ok (la, lp, h') ∧
    h' !! 0%nat = Some (OArray sample_raster) ∧
    h' !! 1%nat = Some (ODict sample_profile).
Proof.
  destruct (run_merge [0%nat] [1%nat] "bilinear" VNone (VStr "int16") "first"
              sample_store) as [[[la lp] h']|e] eqn:Hrun.
  - exists la, lp, h'. split; [reflexivity|].
    destruct (merge_returns_updated_copy _ _ _ _ _ _ _ _ _ _ Hrun)
      as (l0 & p0 & p' & m & t & c & hh & w & _ & _ & _ & _ & _ & _ & _ & _
          & _ & _ & _ & _ & _ & _ & _ & Hframe).
    split; apply Hframe; reflexivity.
  - vm_compute in Hrun. discriminate Hrun.
Defined.

(** C5 at its failing input: an empty list of arrays with one profile.
    The lengths differ, which lines 188-189 check and answer with
    [ValueError]; but [arrays[0]] on line 177 comes first, and the call
    ends in [IndexError]. *)
Theorem merge_empty_arrays_index_error :
  length ([] : list loc) ≠ length [3%nat] ∧
  run_merge [] [3%nat] "bilinear" VNone VNone "first" sample_store
    = Raise IndexError ∧
  run_merge [] [3%nat] "bilinear" VNone VNone "first" sample_store
    ≠ Raise ValueError.
Proof. split; [discriminate|]. split; [reflexivity | discriminate]. Qed.

Lemma merge_rejects_mismatched_inputs_witness :
  ([0%nat; 2%nat] : list loc) ≠ [] ∧
  run_merge [0%nat; 2%nat] [1%nat; 1%nat] "bilinear" VNone VNone "first"
    sample_store = Raise ValueError.
Proof.
  split; [discriminate|].
  refine (proj1 (merge_rejects_mismatched_inputs (rasterio := reference_rasterio)
                   [0%nat; 2%nat] [1%nat; 1%nat] "bilinear" VNone VNone "first"
                   sample_store [sample_raster; sample_band] _ _) _).
  - discriminate.
  - reflexivity.
  - right. left. exists sample_raster, sample_band.
    split; [left|]. split; [right; left|]. cbn. discriminate.
Defined.

(** C6, as stated, fails: a profile without an array is accepted and the
    fill array and profile are returned; a path together with a profile
    and an array passes the check as well (that call is refused later,
    by the merge, not by the check). *)
Lemma expand_accepts_profile_without_array :
  (∃ r, run_expand (Bounds 0 0 4 4) "" (Some 1%nat) None 0 "" sample_store
          sample_files = Ok r) ∧
  check_source_arguments "dem.tif" (Some 1%nat) (Some 0%nat) sample_store = Ok tt ∧
  run_expand (Bounds 0 0 4 4) "dem.tif" (Some 1%nat) (Some 0%nat) 0 ""
    sample_store sample_files ≠ Raise AssertionError.
Proof.
  split; [|split].
  - eexists. vm_compute. reflexivity.
  - reflexivity.
  - vm_compute. discriminate.
Qed.

Lemma expand_raster_to_bounds_argument_check_witness :
  run_expand (Bounds 0 0 4 4) "" None (Some 0%nat) 0 "" sample_store sample_files
    = Raise AssertionError ∧
  run_expand (Bounds 0 0 4 4) "" (Some 3%nat) (Some 0%nat) 0 "" sample_store
    sample_files = Raise AssertionError ∧
  check_source_arguments "" (Some 1%nat) None sample_store = Ok tt.
Proof.
  split; [|split].
  - refine (proj1 (expand_raster_to_bounds_argument_check
                     (rasterio := reference_rasterio) (Bounds 0 0 4 4) ""
                     None (Some 0%nat) 0 "" sample_store sample_files) _ _);
      [reflexivity | now left].
  - refine (proj1 (expand_raster_to_bounds_argument_check
                     (rasterio := reference_rasterio) (Bounds 0 0 4 4) ""
                     (Some 3%nat) (Some 0%nat) 0 "" sample_store sample_files) _ _);
      [reflexivity | right; exists 3%nat; split; reflexivity].
  - refine (proj2 (proj2 (proj2 (expand_raster_to_bounds_argument_check
                     (rasterio := reference_rasterio) (Bounds 0 0 4 4) ""
                     (Some 1%nat) None 0 "" sample_store sample_files)))
              1%nat sample_profile _ _ _);
      [reflexivity | reflexivity |].
    intros Hempty.
    assert (Hk : sample_profile !! "width"%string = (∅ : gmap string (value Q)) !! "width"%string)
      by now rewrite Hempty.
    vm_compute in Hk. discriminate Hk.
Defined.

(** C9 at its failing input: the source is the raster stored under
    "dem.tif".  The band read from the file is 2-D, the fill array is
    [(1, height, width)], and the call ends in the [ValueError] of the
    merge instead of a merged pair. *)
Theorem expand_raster_to_bounds_from_path_raises :
  (∃ arr prof b, ref_read sample_files "dem.tif" = Ok (arr, prof, b) ∧
                 shape arr = [2; 2]%Z) ∧
  run_expand (Bounds 0 0 4 4) "dem.tif" None None 0 "" [] sample_files
    = Raise ValueError.
Proof.
  split.
  - eexists _, _, _. split; [vm_compute; reflexivity | reflexivity].
  - vm_compute. reflexivity.
Qed.

(** The same array passed directly as a band-first 3-D array is merged. *)
Lemma expand_raster_to_bounds_direct_returns :
  ∃ h' fs', run_expand (Bounds 0 0 2 2) "" (Some 1%nat) (Some 0%nat) 0 ""
              sample_store sample_files = Ok (6%nat, 7%nat, h', fs') ∧
            h' !! 6%nat = Some (OArray sample_raster).
Proof. eexists _, _. split; [vm_compute; reflexivity | reflexivity]. Qed.

Lemma expand_raster_to_bounds_from_path_never_returns_witness :
  returned (run_expand (Bounds 0 0 4 4) "dem.tif" None None 0 "" [] sample_files)
    = false.
Proof.
  destruct (run_expand (Bounds 0 0 4 4) "dem.tif" None None 0 "" [] sample_files)
    as [r|e] eqn:Hrun; [|reflexivity].
  exfalso. revert Hrun.
  apply (expand_raster_to_bounds_from_path_never_returns
           (rasterio := reference_rasterio)).
  - intros fs path arr prof b Hrd. cbn in Hrd. unfold ref_read in Hrd.
    destruct (fs !! path) as [[arr0 p]|]; [|discriminate].
    destruct (p !! "height"%string) as [[]|]; try discriminate.
    destruct (p !! "width"%string) as [[]|]; try discriminate.
    destruct (p !! "transform"%string) as [[]|]; try discriminate.
    injection Hrd as <- _ _. reflexivity.
  - intros shp v dt arr Hfull. cbn in Hfull. unfold ref_np_full in Hfull.
    destruct dt; try discriminate.
    destruct (forallb (Z.leb 0) shp); [|discriminate].
    injection Hfull as <-. reflexivity.
  - discriminate.
Defined.

End Runs.

(** ** [read_raster_with_bounds]: the buffered bounds *)

Section BufferedBounds.
Local Open Scope Q_scope.

(** With a non-negative buffer the bounds handed to rasterio contain the
    requested bounds. *)
Lemma buffered_bounds_contains (bnds : bounds Q) (buffer_pixels : Q)
    (transform : affine Q) :
  0 <= buffer_pixels →
  let b := buffered_bounds bnds buffer_pixels transform in
  min_x b <= min_x bnds ∧ min_y b <= min_y bnds ∧
  max_x bnds <= max_x b ∧ max_y bnds <= max_y b.
Proof.
  intros Hbuf. cbn.
  pose proof (Qmult_le_0_compat _ _ Hbuf (Qabs_nonneg (af_a transform))).
  pose proof (Qmult_le_0_compat _ _ Hbuf (Qabs_nonneg (af_e transform))).
  repeat split; lra.
Qed.

End BufferedBounds.

(** ** [str.replace] and the temporary VRT path of [merge_raster_files] *)

Section Replace.

Lemma length_append (s t : string) :
  String.length (s +:+ t) = (String.length s + String.length t)%nat.
Proof.
  induction s as [|c s IH]; [reflexivity|].
  change (S (String.length (s +:+ t)) = S (String.length s + String.length t)).
  now f_equal.
Qed.

Lemma prefix_split (old s : string) :
  String.prefix old s = true → ∃ rest, s = old +:+ rest.
Proof.
  revert s. induction old as [|a old IH]; intros s Hp.
  - exists s. reflexivity.
  - destruct s as [|c s]; cbn in Hp; [discriminate|].
    destruct (Ascii.ascii_dec a c) as [->|]; [|discriminate].
    destruct (IH s Hp) as [rest ->]. exists rest. reflexivity.
Qed.

Lemma prefix_length (old s : string) :
  String.prefix old s = true → (String.length old ≤ String.length s)%nat.
Proof.
  intros Hp. destruct (prefix_split old s Hp) as [rest ->].
  rewrite length_append. lia.
Qed.

Lemma append_inj_length (s1 s2 t1 t2 : string) :
  String.length s1 = String.length s2 → s1 +:+ t1 = s2 +:+ t2 → s1 = s2.
Proof.
  revert s2. induction s1 as [|a s1 IH]; intros [|b s2] Hlen Heq;
    cbn in *; try discriminate; [reflexivity|].
  injection Heq as -> Heq. f_equal. apply IH; [lia | assumption].
Qed.

Lemma replace_without_occurrence (s old new : string) :
  occurs old s = false → py_replace s old new = s.
Proof.
  unfold py_replace. induction s as [|c s IH]; intros Hocc.
  - cbn in Hocc |- *. destruct old; [discriminate | reflexivity].
  - cbn [occurs] in Hocc. apply orb_false_elim in Hocc as [Hp Hocc].
    cbn [replace_from]. rewrite Hp. f_equal. now apply IH.
Qed.

Lemma replace_with_occurrence (s old new : string) :
  String.length old = String.length new → old ≠ new →
  occurs old s = true → py_replace s old new ≠ s.
Proof.
  intros Hlen Hne. unfold py_replace.
  assert (Hold : old ≠ "").
  { intros ->. destruct new; [congruence | discriminate]. }
  induction s as [|c s IH]; intros Hocc.
  - cbn in Hocc. destruct old; [congruence | discriminate].
  - cbn [replace_from].
    destruct (String.prefix old (String c s)) eqn:Hp.
    + destruct old as [|a old']; [congruence|].
      destruct (prefix_split _ _ Hp) as [rest Hs]. rewrite Hs.
      intros Heq. apply append_inj_length in Heq; [congruence|].
      now rewrite Hlen.
    + cbn [occurs] in Hocc. rewrite Hp in Hocc. cbn in Hocc.
      intros Heq. injection Heq as Heq. now apply IH.
Qed.

Lemma replace_from_length (old new : string) :
  String.length old = String.length new →
  ∀ (s : string) (skip : nat), (skip ≤ String.length s)%nat →
    String.length (replace_from old new skip s) = (String.length s - skip)%nat.
Proof.
  intros Hlen. induction s as [|c s IH]; intros skip Hskip.
  - cbn in *. destruct old; [|reflexivity].
    cbn in Hlen. destruct skip; cbn; lia.
  - cbn [replace_from]. destruct skip as [|k].
    + destruct (String.prefix old (String c s)) eqn:Hp.
      * destruct old as [|a old'].
        -- rewrite length_append. cbn in Hlen |- *. rewrite IH by lia. lia.
        -- apply prefix_length in Hp. cbn in Hp, Hlen.
           rewrite length_append, IH by lia. cbn. lia.
      * cbn. rewrite IH by lia. lia.
    + cbn in Hskip |- *. apply IH. lia.
Qed.

End Replace.

(** ** [merge_raster_files] *)

Section MergeFilesFacts.
Context {F X : Type} {gdal : Gdal F X}.

Lemma tif_never_straddles (base : string) :
  occurs ".tif" base = false →
  String.prefix ".tif" (base +:+ ".tif") = true → base = "".
Proof.
  intros Hocc Hp.
  destruct base as [|c1 [|c2 [|c3 [|c4 base]]]]; [reflexivity|..]; exfalso.
  - cbv [String.prefix String.append] in Hp.
    repeat (destruct (Ascii.ascii_dec _ _); try discriminate).
  - cbv [String.prefix String.append] in Hp.
    repeat (destruct (Ascii.ascii_dec _ _); try discriminate).
  - cbv [String.prefix String.append] in Hp.
    repeat (destruct (Ascii.ascii_dec _ _); try discriminate).
  - cbn [occurs] in Hocc. apply orb_false_elim in Hocc as [Hbase _].
    cbv [String.prefix String.append] in Hp, Hbase.
    repeat (destruct (Ascii.ascii_dec _ _); try congruence).
    destruct base; discriminate Hbase.
Qed.

Lemma replace_tif_suffix (base : string) :
  occurs ".tif" base = false →
  py_replace (base +:+ ".tif") ".tif" ".vrt" = base +:+ ".vrt".
Proof.
  unfold py_replace. induction base as [|c base IH]; intros Hocc.
  - reflexivity.
  - change (String c base +:+ ".tif") with (String c (base +:+ ".tif")).
    change (String c base +:+ ".vrt") with (String c (base +:+ ".vrt")).
    cbn [replace_from].
    destruct (String.prefix ".tif" (String c (base +:+ ".tif"))) eqn:Hp.
    + apply (tif_never_straddles (String c base)) in Hp; [discriminate|assumption].
    + cbn [occurs] in Hocc. apply orb_false_elim in Hocc as [_ Hocc].
      f_equal. now apply IH.
Qed.

(** The temporary VRT path of line 150 has the length of the output path;
    it is the output path itself exactly when that contains no ".tif";
    and for [base.tif] with no ".tif" inside [base] it is [base.vrt]. *)
Theorem merge_raster_files_vrt_path (output_path : string) :
  let vrt_path := py_replace output_path ".tif" ".vrt" in
  String.length vrt_path = String.length output_path ∧
  (vrt_path = output_path ↔ occurs ".tif" output_path = false) ∧
  (∀ base, occurs ".tif" base = false → output_path = base +:+ ".tif" →
     vrt_path = base +:+ ".vrt").
Proof.
  cbv zeta. split; [|split].
  - unfold py_replace. rewrite replace_from_length by (reflexivity || lia). lia.
  - split.
    + intros Heq. destruct (occurs ".tif" output_path) eqn:Hocc; [|reflexivity].
      exfalso. revert Heq. now apply replace_with_occurrence.
    + apply replace_without_occurrence.
  - intros base Hocc ->. now apply replace_tif_suffix.
Qed.

Lemma merge_raster_files_vrt_path_witness :
  py_replace "/data/mosaic.tif" ".tif" ".vrt" = "/data/mosaic.vrt" ∧
  py_replace "/data/mosaic.img" ".tif" ".vrt" = "/data/mosaic.img".
Proof.
  destruct (merge_raster_files_vrt_path "/data/mosaic.tif") as (_ & _ & Hsuffix).
  destruct (merge_raster_files_vrt_path "/data/mosaic.img") as (_ & Hsame & _).
  split; [apply (Hsuffix "/data/mosaic"); reflexivity | apply Hsame; reflexivity].
Defined.

(** A call that returns has removed the temporary VRT: nothing is left at
    the VRT path, the rest of the disk is as [gdal.Translate] left it, and
    data is returned exactly when [return_data] is set, read back from
    the output path. *)
Theorem merge_raster_files_removes_vrt (paths : list string)
    (output_path : string) (nodata_value : value F) (return_data : bool)
    (disk disk' : gmap string X)
    (data : option (ndarray F * gmap string (value F))) :
  merge_raster_files paths output_path nodata_value return_data disk
    = Ok (data, disk') →
  let vrt_path := py_replace output_path ".tif" ".vrt" in
  disk' !! vrt_path = None ∧
  (∃ built translated,
     gdal_BuildVRT vrt_path paths nodata_value disk = Ok built ∧
     gdal_Translate output_path vrt_path nodata_value built = Ok translated ∧
     is_Some (translated !! vrt_path) ∧
     ∀ path, path ≠ vrt_path → disk' !! path = translated !! path) ∧
  (data = None ↔ return_data = false) ∧
  (∀ arr arr_profile, data = Some (arr, arr_profile) →
     rio_read_all disk' output_path = Ok (arr_profile, arr)).
Proof.
  unfold merge_raster_files. cbv zeta. intros Hrun.
  apply bind_Ok in Hrun as (built & Hbuild & Hrun).
  apply bind_Ok in Hrun as (translated & Htrans & Hrun).
  apply bind_Ok in Hrun as (removed & Hrm & Hrun).
  unfold os_remove in Hrm.
  destruct (translated !! py_replace output_path ".tif" ".vrt") as [x|] eqn:Hvrt;
    [|discriminate].
  injection Hrm as <-.
  destruct return_data.
  - apply bind_Ok in Hrun as ([arr_profile arr] & Hread & Hrun).
    injection Hrun as <- <-.
    split; [apply lookup_delete_eq|]. split.
    { exists built, translated. rewrite Hvrt.
      split; [assumption|]. split; [assumption|]. split; [eauto|].
      intros path Hne. now apply lookup_delete_ne. }
    split; [split; discriminate|].
    intros arr' p' Heq. injection Heq as <- <-. assumption.
  - injection Hrun as <- <-.
    split; [apply lookup_delete_eq|]. split.
    { exists built, translated. rewrite Hvrt.
      split; [assumption|]. split; [assumption|]. split; [eauto|].
      intros path Hne. now apply lookup_delete_ne. }
    split; [split; reflexivity|]. discriminate.
Qed.

(** An output path without ".tif" is its own temporary VRT path, so the
    final [os.remove] deletes the output: a call that returns leaves
    nothing at the output path, and, where opening a missing file fails,
    a call with [return_data] never returns. *)
Theorem merge_raster_files_without_tif (paths : list string)
    (output_path : string) (nodata_value : value F) (disk : gmap string X) :
  occurs ".tif" output_path = false →
  (∀ return_data data disk',
     merge_raster_files paths output_path nodata_value return_data disk
       = Ok (data, disk') →
     disk' !! output_path = None) ∧
  ((∀ d path, d !! path = None → ∃ e, rio_read_all d path = Raise e) →
   ∀ res, merge_raster_files paths output_path nodata_value true disk ≠ Ok res).
Proof.
  intros Hocc.
  assert (Hvrt : py_replace output_path ".tif" ".vrt" = output_path)
    by now apply replace_without_occurrence.
  assert (Hgone : ∀ return_data data disk',
     merge_raster_files paths output_path nodata_value return_data disk
       = Ok (data, disk') → disk' !! output_path = None).
  { intros return_data data disk' Hrun. unfold merge_raster_files in Hrun.
    cbv zeta in Hrun. rewrite Hvrt in Hrun.
    apply bind_Ok in Hrun as (built & _ & Hrun).
    apply bind_Ok in Hrun as (translated & _ & Hrun).
    apply bind_Ok in Hrun as (removed & Hrm & Hrun).
    unfold os_remove in Hrm.
    destruct (translated !! output_path); [|discriminate].
    injection Hrm as <-.
    destruct return_data.
    - apply bind_Ok in Hrun as ([arr_profile arr] & _ & Hrun).
      injection Hrun as _ <-. apply lookup_delete_eq.
    - injection Hrun as _ <-. apply lookup_delete_eq. }
  split; [exact Hgone|].
  intros Hmissing [data disk'] Hrun.
  pose proof (Hgone _ _ _ Hrun) as Hnone.
  unfold merge_raster_files in Hrun. cbv zeta in Hrun.
  apply bind_Ok in Hrun as (built & _ & Hrun).
  apply bind_Ok in Hrun as (translated & _ & Hrun).
  apply bind_Ok in Hrun as (removed & _ & Hrun).
  apply bind_Ok in Hrun as ([arr_profile arr] & Hread & Hrun).
  injection Hrun as _ <-.
  destruct (Hmissing _ _ Hnone) as [e He]. congruence.
Qed.

End MergeFilesFacts.

Section MergeFilesRuns.
Local Abbreviation run_merge_files :=
  (merge_raster_files (F := Q) (gdal := reference_gdal)).

Lemma merge_raster_files_removes_vrt_witness :
  ∃ data disk',
    run_merge_files ["a.tif"; "b.tif"] "/data/mosaic.tif" (VInt 0) true ∅
      = Ok (data, disk') ∧
    disk' !! "/data/mosaic.vrt" = None.
Proof.
  destruct (run_merge_files ["a.tif"; "b.tif"] "/data/mosaic.tif" (VInt 0) true ∅)
    as [[data disk']|e] eqn:Hrun.
  - exists data, disk'. split; [reflexivity|].
    exact (proj1 (merge_raster_files_removes_vrt _ _ _ _ _ _ _ Hrun)).
  - exfalso.
    assert (Hok : returned (run_merge_files ["a.tif"; "b.tif"] "/data/mosaic.tif"
                              (VInt 0) true ∅) = true)
      by (vm_compute; reflexivity).
    rewrite Hrun in Hok. discriminate Hok.
Defined.

Lemma merge_raster_files_without_tif_witness :
  occurs ".tif" "/data/mosaic.img" = false ∧
  returned (run_merge_files ["a.tif"; "b.tif"] "/data/mosaic.img" (VInt 0) true ∅)
    = false.
Proof.
  split; [reflexivity|].
  destruct (run_merge_files ["a.tif"; "b.tif"] "/data/mosaic.img" (VInt 0) true ∅)
    as [res|e] eqn:Hrun; [|reflexivity].
  exfalso. revert Hrun.
  refine (proj2 (merge_raster_files_without_tif (gdal := reference_gdal)
                   ["a.tif"; "b.tif"] "/data/mosaic.img" (VInt 0) ∅ _) _ res).
  - reflexivity.
  - intros d path Hnone. exists (ExternalError 2).
    cbn. unfold ref_read_all. now rewrite Hnone.
Defined.

End MergeFilesRuns.

(** ** Tile lists: [build_vrt] and [build_tileindex] *)

Section VrtFacts.
Context {shell : Shell}.

Lemma text_lines_line (tile rest : string) :
  occurs (String newline "") tile = false →
  text_lines (tile +:+ String newline rest) = tile :: text_lines rest.
Proof.
  induction tile as [|c tile IH]; intros Hocc.
  - reflexivity.
  - cbn [occurs] in Hocc. apply orb_false_elim in Hocc as [Hc Hocc].
    change (String c tile +:+ String newline rest)
      with (String c (tile +:+ String newline rest)).
    cbn [text_lines]. rewrite (IH Hocc).
    destruct (Ascii.eqb c newline) eqn:Heq; [|reflexivity].
    apply Ascii.eqb_eq in Heq. subst c. exfalso.
    cbv [String.prefix] in Hc.
    destruct (Ascii.ascii_dec newline newline); [|congruence].
    destruct tile; discriminate Hc.
Qed.

(** Reading the list file back line by line gives the tiles, in order. *)
Lemma text_lines_tile_lines (tiles : list string) :
  Forall (λ tile, occurs (String newline "") tile = false) tiles →
  text_lines (tile_lines tiles) = tiles.
Proof.
  induction 1 as [|tile tiles Htile _ IH]; [reflexivity|].
  cbn [tile_lines foldr]. rewrite text_lines_line by assumption.
  f_equal. exact IH.
Qed.

Lemma write_tile_list_lookup (name : string) (tiles : generator)
    (disk : gmap string string) :
  write_tile_list name tiles disk !! name
    = Some (tile_lines (tiles (<[name := ""]> disk))) ∧
  ∀ path, path ≠ name → write_tile_list name tiles disk !! path = disk !! path.
Proof.
  unfold write_tile_list. split.
  - apply lookup_insert_eq.
  - intros path Hne. now rewrite !lookup_insert_ne by congruence.
Qed.

(** A call with [run=False] that returns has left the list on disk:
    "vrt_temp.txt" holds one line per tile the generator yields, in
    order, so that reading it back line by line gives those tiles when
    none of them contains a newline; every other file is untouched, a
    previous "vrt_temp.txt" is overwritten, and the generator is left
    exhausted. *)
Theorem build_vrt_writes_tile_list (tiles tiles' : generator) (vrt_path : string)
    (disk disk' : gmap string string) :
  build_vrt tiles vrt_path false disk = Ok (tiles', disk') →
  let listing := tiles (<["vrt_temp.txt" := ""]> disk) in
  tiles' = exhausted ∧
  disk' !! "vrt_temp.txt" = Some (tile_lines listing) ∧
  (Forall (λ tile, occurs (String newline "") tile = false) listing →
   text_lines (tile_lines listing) = listing) ∧
  (∀ path, path ≠ "vrt_temp.txt" → disk' !! path = disk !! path).
Proof.
  unfold build_vrt. cbv zeta. intros Hrun. injection Hrun as <- <-.
  destruct (write_tile_list_lookup "vrt_temp.txt" tiles disk) as [Hfile Hrest].
  split; [reflexivity|]. split; [exact Hfile|].
  split; [apply text_lines_tile_lines | exact Hrest].
Qed.

(** The same for [build_tileindex] and "tindex_temp.txt"; in particular a
    "vrt_temp.txt" left by [build_vrt] is not touched. *)
Theorem build_tileindex_writes_tile_list (tiles tiles' : generator)
    (tindex_path : string) (disk disk' : gmap string string) :
  build_tileindex tiles tindex_path false disk = Ok (tiles', disk') →
  let listing := tiles (<["tindex_temp.txt" := ""]> disk) in
  tiles' = exhausted ∧
  disk' !! "tindex_temp.txt" = Some (tile_lines listing) ∧
  (Forall (λ tile, occurs (String newline "") tile = false) listing →
   text_lines (tile_lines listing) = listing) ∧
  (∀ path, path ≠ "tindex_temp.txt" → disk' !! path = disk !! path) ∧
  disk' !! "vrt_temp.txt" = disk !! "vrt_temp.txt".
Proof.
  unfold build_tileindex. cbv zeta. intros Hrun. injection Hrun as <- <-.
  destruct (write_tile_list_lookup "tindex_temp.txt" tiles disk) as [Hfile Hrest].
  split; [reflexivity|]. split; [exact Hfile|].
  split; [apply text_lines_tile_lines|].
  split; [exact Hrest|]. apply Hrest. discriminate.
Qed.

(** With [run=True] the command is run on a disk that holds the list, and
    a call that returns has removed the list again: nothing is left at
    "vrt_temp.txt" and every other file is as the command left it.  If
    the command itself removes the list, the call ends in
    [FileNotFoundError]. *)
Theorem build_vrt_runs_and_cleans_up (tiles : generator) (vrt_path : string)
    (disk : gmap string string) :
  let listed := write_tile_list "vrt_temp.txt" tiles disk in
  let ran :=
    os_system ("gdalbuildvrt -input_file_list vrt_temp.txt " +:+ vrt_path)
      listed in
  listed !! "vrt_temp.txt"
    = Some (tile_lines (tiles (<["vrt_temp.txt" := ""]> disk))) ∧
  (ran !! "vrt_temp.txt" = None →
   build_vrt tiles vrt_path true disk = Raise FileNotFoundError) ∧
  (is_Some (ran !! "vrt_temp.txt") →
   ∃ disk', build_vrt tiles vrt_path true disk = Ok (exhausted, disk') ∧
            disk' !! "vrt_temp.txt" = None ∧
            ∀ path, path ≠ "vrt_temp.txt" → disk' !! path = ran !! path).
Proof.
  cbv zeta. split; [apply write_tile_list_lookup|]. split.
  - intros Hnone. unfold build_vrt, os_remove. cbv zeta. now rewrite Hnone.
  - intros [text Hsome]. unfold build_vrt, os_remove. cbv zeta.
    rewrite Hsome. eexists. split; [reflexivity|].
    split; [apply lookup_delete_eq|].
    intros path Hne. now apply lookup_delete_ne.
Qed.

(** A generator is spent by the first call: handing the generator that
    [build_vrt] has consumed on to [build_tileindex] (or to [build_vrt]
    again) writes an empty list, whatever the generator yielded before. *)
Theorem build_vrt_exhausts_generator (tiles tiles' : generator)
    (vrt_path other_path : string) (run : bool) (disk disk1 : gmap string string) :
  build_vrt tiles vrt_path run disk = Ok (tiles', disk1) →
  (∃ disk2, build_tileindex tiles' other_path false disk1 = Ok (exhausted, disk2) ∧
            disk2 !! "tindex_temp.txt" = Some "") ∧
  (∃ disk2, build_vrt tiles' other_path false disk1 = Ok (exhausted, disk2) ∧
            disk2 !! "vrt_temp.txt" = Some "").
Proof.
  intros Hrun.
  assert (Hspent : tiles' = exhausted).
  { unfold build_vrt in Hrun. cbv zeta in Hrun. destruct run.
    - apply bind_Ok in Hrun as (d & _ & Hrun). now injection Hrun as <- _.
    - now injection Hrun as <- _. }
  subst tiles'. split; eexists; (split; [reflexivity|]);
    apply write_tile_list_lookup.
Qed.

End VrtFacts.

Section VrtRuns.

Lemma build_vrt_writes_tile_list_witness :
  ∃ tiles' disk',
    build_vrt (shell := logging_shell) (find_tiles_for_vrt "/dem" "*.tif")
      "/out/dem.vrt" false
      (<["/dem/a.tif" := "A"]> (<["/dem/b.tif" := "B"]> ∅))
      = Ok (tiles', disk') ∧
    ∃ text, disk' !! "vrt_temp.txt" = Some text ∧
            text_lines text = ["/dem/a.tif"; "/dem/b.tif"].
Proof.
  destruct (build_vrt (shell := logging_shell) (find_tiles_for_vrt "/dem" "*.tif")
              "/out/dem.vrt" false
              (<["/dem/a.tif" := "A"]> (<["/dem/b.tif" := "B"]> ∅)))
    as [[tiles' disk']|e] eqn:Hrun.
  - destruct (build_vrt_writes_tile_list _ _ _ _ _ Hrun)
      as (_ & Hfile & Hback & _).
    exists tiles', disk'. split; [reflexivity|].
    eexists. split; [exact Hfile|].
    rewrite Hback; [vm_compute; reflexivity|].
    vm_compute. repeat constructor.
  - exfalso.
    assert (Hok : returned (build_vrt (shell := logging_shell)
                              (find_tiles_for_vrt "/dem" "*.tif") "/out/dem.vrt"
                              false
                              (<["/dem/a.tif" := "A"]> (<["/dem/b.tif" := "B"]> ∅)))
                  = true)
      by (vm_compute; reflexivity).
    rewrite Hrun in Hok. discriminate Hok.
Defined.

Lemma build_vrt_runs_and_cleans_up_witness :
  ∃ disk',
    build_vrt (shell := logging_shell) (find_tiles_for_vrt "/dem" "*.tif")
      "/out/dem.vrt" true (<["/dem/a.tif" := "A"]> ∅) = Ok (exhausted, disk') ∧
    disk' !! "vrt_temp.txt" = None ∧
    disk' !! "shell.log"
      = Some "gdalbuildvrt -input_file_list vrt_temp.txt /out/dem.vrt".
Proof.
  destruct (build_vrt_runs_and_cleans_up (shell := logging_shell)
              (find_tiles_for_vrt "/dem" "*.tif") "/out/dem.vrt"
              (<["/dem/a.tif" := "A"]> ∅)) as (_ & _ & Hok).
  destruct Hok as (disk' & Hrun & Hgone & Hrest).
  { vm_compute. eauto. }
  exists disk'. split; [exact Hrun|]. split; [exact Hgone|].
  rewrite Hrest by discriminate. vm_compute. reflexivity.
Defined.

Lemma build_vrt_exhausts_generator_witness :
  ∃ tiles' disk1 disk2,
    build_vrt (shell := logging_shell) (find_tiles_for_vrt "/dem" "*.tif")
      "/out/dem.vrt" true (<["/dem/a.tif" := "A"]> ∅) = Ok (tiles', disk1) ∧
    build_tileindex (shell := logging_shell) tiles' "/out/dem.gpkg" false disk1
      = Ok (exhausted, disk2) ∧
    disk2 !! "tindex_temp.txt" = Some "".
Proof.
  destruct (build_vrt (shell := logging_shell) (find_tiles_for_vrt "/dem" "*.tif")
              "/out/dem.vrt" true (<["/dem/a.tif" := "A"]> ∅))
    as [[tiles' disk1]|e] eqn:Hrun.
  - destruct (build_vrt_exhausts_generator _ _ _ "/out/dem.gpkg" _ _ _ Hrun)
      as ((disk2 & Hidx & Hempty) & _).
    exists tiles', disk1, disk2. auto.
  - exfalso.
    assert (Hok : returned (build_vrt (shell := logging_shell)
                              (find_tiles_for_vrt "/dem" "*.tif") "/out/dem.vrt"
                              true (<["/dem/a.tif" := "A"]> ∅)) = true)
      by (vm_compute; reflexivity).
    rewrite Hrun in Hok. discriminate Hok.
Defined.

End VrtRuns.

Section VrtRunsIndex.

Lemma build_tileindex_writes_tile_list_witness :
  ∃ tiles' disk',
    build_tileindex (shell := logging_shell) (find_tiles_for_vrt "/dem" "*.tif")
      "/out/dem.gpkg" false
      (<["/dem/a.tif" := "A"]> (<["vrt_temp.txt" := "kept"]> ∅))
      = Ok (tiles', disk') ∧
    disk' !! "vrt_temp.txt" = Some "kept" ∧
    ∃ text, disk' !! "tindex_temp.txt" = Some text ∧
            text_lines text = ["/dem/a.tif"].
Proof.
  destruct (build_tileindex (shell := logging_shell)
              (find_tiles_for_vrt "/dem" "*.tif") "/out/dem.gpkg" false
              (<["/dem/a.tif" := "A"]> (<["vrt_temp.txt" := "kept"]> ∅)))
    as [[tiles' disk']|e] eqn:Hrun.
  - destruct (build_tileindex_writes_tile_list _ _ _ _ _ Hrun)
      as (_ & Hfile & Hback & _ & Hvrt).
    exists tiles', disk'. split; [reflexivity|]. split.
    + rewrite Hvrt. vm_compute. reflexivity.
    + eexists. split; [exact Hfile|].
      rewrite Hback; [vm_compute; reflexivity|].
      vm_compute. repeat constructor.
  - exfalso.
    assert (Hok : returned (build_tileindex (shell := logging_shell)
                              (find_tiles_for_vrt "/dem" "*.tif") "/out/dem.gpkg"
                              false
                              (<["/dem/a.tif" := "A"]> (<["vrt_temp.txt" := "kept"]> ∅)))
                  = true)
      by (vm_compute; reflexivity).
    rewrite Hrun in Hok. discriminate Hok.
Defined.

End VrtRunsIndex.

(** ** Profile lookups *)

Section ProfileLookups.
Context {F FS : Type} {float_ops : PyFloat F} {rasterio : Rasterio F FS}.
Local Abbreviation heap := (list (object F)).
Local Abbreviation profile := (gmap string (value F)).

Lemma dict_getitem_lookup (h : heap) (l : loc) (d : profile) (k : string) :
  h !! l = Some (ODict d) →
  dict_getitem h l k = match d !! k with
                       | Some v => Ok v
                       | None => Raise KeyError
                       end.
Proof.
  intros Hl. unfold dict_getitem. apply get_dict_Ok in Hl. now rewrite Hl.
Qed.

End ProfileLookups.

(** ** Guarded sides and buffered bounds at sample inputs *)

Section ExtentEdges.
Local Open Scope Q_scope.

Lemma expand_extent_keeps_left_right_bottom_witness :
  ∃ g, expand_extent (Bounds 1 1 9 9) (Bounds 0 0 10 10) 1 1 = Ok g ∧
       new_trg_left g = 0 ∧ new_trg_right g = 10 ∧ new_trg_bottom g = 0.
Proof.
  destruct (expand_extent_keeps_left_right_bottom
              (Bounds 1 1 9 9) (Bounds 0 0 10 10) 1 1)
    as (g & Hg & HL & HR & HB); try reflexivity.
  exists g. split; [exact Hg|].
  split; [apply HL | split; [apply HR | apply HB]]; reflexivity.
Defined.

Lemma buffered_bounds_contains_witness :
  min_x (buffered_bounds (Bounds 1 1 9 9) 2 (Affine (1 # 2) 0 0 0 (-1 # 2) 10)) <= 1 ∧
  9 <= max_x (buffered_bounds (Bounds 1 1 9 9) 2 (Affine (1 # 2) 0 0 0 (-1 # 2) 10)).
Proof.
  destruct (buffered_bounds_contains (Bounds 1 1 9 9) 2
              (Affine (1 # 2) 0 0 0 (-1 # 2) 10)) as (Hl & _ & Hr & _).
  - discriminate.
  - split; [exact Hl | exact Hr].
Defined.

End ExtentEdges.

(** ** [read_raster_with_bounds] *)

Section WindowedFacts.
Context {F FS W : Type} {float_ops : PyFloat F}
        {windows : RasterioWindows F FS W}.
Local Abbreviation heap := (list (object F)).
Local Abbreviation profile := (gmap string (value F)).

(** The items of the profile returned for a window. *)
Lemma window_profile_items (sp : profile) (height width transform : value F) :
  let p := <["transform" := transform]>
             (<["width" := width]> (<["height" := height]> sp)) in
  p !! "height" = Some height ∧ p !! "width" = Some width ∧
  p !! "transform" = Some transform ∧
  ∀ k : string, k ∉ ["height"; "width"; "transform"]%string → p !! k = sp !! k.
Proof.
  cbv zeta. split; [|split; [|split]].
  - rewrite !lookup_insert_ne by discriminate. apply lookup_insert_eq.
  - rewrite lookup_insert_ne by discriminate. apply lookup_insert_eq.
  - apply lookup_insert_eq.
  - intros k Hk. rewrite !not_elem_of_cons in Hk. destruct Hk as (? & ? & ? & _).
    now rewrite !lookup_insert_ne by congruence.
Qed.

(** A call that returns has read exactly one window, the intersection of
    the window of the buffered bounds with the window of the raster's own
    bounds; the data and the profile are two new objects; the profile is
    the file's profile with "height", "width" and "transform" replaced by
    the window's, every other key as in the file. *)
Theorem read_raster_with_bounds_returns_window (file_path : string)
    (bnds : bounds F) (buffer_pixels : F) (h h' : heap) (fs : FS) (ld lp : loc) :
  read_raster_with_bounds file_path bnds buffer_pixels h fs = Ok (ld, lp, h') →
  ∃ (t : affine F) (src_bounds : bounds F) (sp p : profile)
    (requested extent window : W) (data : ndarray F),
    rio_open fs file_path = Ok (t, src_bounds, sp) ∧
    window_from_bounds (buffered_bounds bnds buffer_pixels t) t = Ok requested ∧
    window_from_bounds src_bounds t = Ok extent ∧
    window_intersection requested extent = Ok window ∧
    rio_read_window fs file_path window = Ok data ∧
    ld = length h ∧ lp = S (length h) ∧
    h' = h ++ [OArray data; ODict p] ∧
    p !! "height" = Some (window_height window) ∧
    p !! "width" = Some (window_width window) ∧
    p !! "transform" = Some (VAffine (window_transform t window)) ∧
    (∀ k : string, k ∉ ["height"; "width"; "transform"]%string →
       p !! k = sp !! k).
Proof.
  unfold read_raster_with_bounds. intros Hrun.
  apply bind_Ok in Hrun as ([[t src_bounds] sp] & Hopen & Hrun).
  apply bind_Ok in Hrun as (requested & Hreq & Hrun).
  apply bind_Ok in Hrun as (extent & Hext & Hrun).
  apply bind_Ok in Hrun as (window & Hint & Hrun).
  apply bind_Ok in Hrun as (data & Hread & Hrun).
  cbn [alloc] in Hrun.
  rewrite dict_setitem_last in Hrun. cbn [mbind result_bind] in Hrun.
  rewrite dict_setitem_last in Hrun. cbn [mbind result_bind] in Hrun.
  rewrite dict_setitem_last in Hrun. cbn [mbind result_bind] in Hrun.
  injection Hrun as <- <- <-.
  destruct (window_profile_items sp (window_height window) (window_width window)
              (VAffine (window_transform t window))) as (Hh & Hw & Ht & Hframe).
  eexists t, src_bounds, sp, _, requested, extent, window, data.
  rewrite length_app, Nat.add_1_r, <- app_assoc. cbn [app].
  repeat (split; [first [eassumption | reflexivity]|]). exact Hframe.
Qed.

(** The function adds no failure of its own: when the five rasterio calls
    succeed, it returns. *)
Theorem read_raster_with_bounds_fails_only_in_rasterio (file_path : string)
    (bnds : bounds F) (buffer_pixels : F) (h : heap) (fs : FS)
    (t : affine F) (src_bounds : bounds F) (sp : profile)
    (requested extent window : W) (data : ndarray F) :
  rio_open fs file_path = Ok (t, src_bounds, sp) →
  window_from_bounds (buffered_bounds bnds buffer_pixels t) t = Ok requested →
  window_from_bounds src_bounds t = Ok extent →
  window_intersection requested extent = Ok window →
  rio_read_window fs file_path window = Ok data →
  ∃ h', read_raster_with_bounds file_path bnds buffer_pixels h fs
          = Ok (length h, S (length h), h') ∧
        h' !! length h = Some (OArray data) ∧
        ∀ (l : loc) (o : object F), h !! l = Some o → h' !! l = Some o.
Proof.
  intros Hopen Hreq Hext Hint Hread. unfold read_raster_with_bounds.
  rewrite Hopen. cbn [mbind result_bind].
  rewrite Hreq. cbn [mbind result_bind].
  rewrite Hext. cbn [mbind result_bind].
  rewrite Hint. cbn [mbind result_bind].
  rewrite Hread. cbn [mbind result_bind alloc].
  rewrite dict_setitem_last. cbn [mbind result_bind].
  rewrite dict_setitem_last. cbn [mbind result_bind].
  rewrite dict_setitem_last. cbn [mbind result_bind].
  rewrite length_app, Nat.add_1_r, <- app_assoc. cbn [app].
  eexists. split; [reflexivity|]. split.
  - now rewrite list_lookup_middle.
  - intros l o Hl. now apply lookup_app_l_Some.
Qed.

End WindowedFacts.

Section WindowedRuns.
Local Open Scope Q_scope.
Local Abbreviation run_read :=
  (read_raster_with_bounds (F := Q) (windows := reference_windows)).

Lemma read_raster_with_bounds_returns_window_witness :
  ∃ ld lp h' data p,
    run_read "dem.tif" (Bounds (1 # 2) (1 # 2) 5 5) 0 [] sample_files
      = Ok (ld, lp, h') ∧
    h' = [OArray data; ODict p] ∧ ld = 0%nat ∧ lp = 1%nat.
Proof.
  destruct (run_read "dem.tif" (Bounds (1 # 2) (1 # 2) 5 5) 0 [] sample_files)
    as [[[ld lp] h']|e] eqn:Hrun.
  - destruct (read_raster_with_bounds_returns_window _ _ _ _ _ _ _ _ Hrun)
      as (t & sb & sp & p & req & ext & w & data & _ & _ & _ & _ & _
          & Hld & Hlp & Hh' & _).
    exists ld, lp, h', data, p. auto.
  - exfalso.
    assert (Hok : returned (run_read "dem.tif" (Bounds (1 # 2) (1 # 2) 5 5) 0 []
                              sample_files) = true)
      by (vm_compute; reflexivity).
    rewrite Hrun in Hok. discriminate Hok.
Defined.

Lemma read_raster_with_bounds_fails_only_in_rasterio_witness :
  ∃ h', run_read "dem.tif" (Bounds 0 0 1 1) 1 sample_store sample_files
          = Ok (4%nat, 5%nat, h').
Proof.
  destruct (read_raster_with_bounds_fails_only_in_rasterio
              (windows := reference_windows) "dem.tif" (Bounds 0 0 1 1) 1
              sample_store sample_files
              (Affine 1 0 0 0 (-1) 2) (Bounds 0 (2 + -1 * inject_Z 2) (0 + 1 * inject_Z 2) 2)
              sample_profile
              (buffered_bounds (Bounds 0 0 1 1) 1 (Affine 1 0 0 0 (-1) 2))
              (Bounds 0 (2 + -1 * inject_Z 2) (0 + 1 * inject_Z 2) 2)
              (Bounds 0 (2 + -1 * inject_Z 2) (1 + 1 * Qabs 1) (1 + 1 * Qabs (-1)))
              sample_raster)
    as (h' & Hrun & _); try reflexivity.
  exists h'. exact Hrun.
Defined.

End WindowedRuns.

(** ** [expand_raster_to_bounds]: what is returned and what is saved *)

Section ExpandResults.
Context {F FS : Type} {float_ops : PyFloat F} {rasterio : Rasterio F FS}.
Local Abbreviation heap := (list (object F)).
Local Abbreviation profile := (gmap string (value F)).



(** Every dataset handed to the merge is band-first 3-D and pairs
    [profiles[i]] with [arrays[i]]: an array goes in as it is when it is
    3-D, and with a leading axis of length 1 when it is 2-D. *)
Theorem merge_inputs_pairs_profiles_with_arrays (arrays profiles : list loc)
    (h : heap) (datasets : list (profile * ndarray F)) :
  merge_inputs arrays profiles h = Ok datasets →
  length datasets = length arrays ∧
  ∀ (i : nat) (p : profile) (a : ndarray F),
    datasets !! i = Some (p, a) →
    ndim a = 3%nat ∧
    ∃ (lp la : loc) (arr : ndarray F),
      profiles !! i = Some lp ∧ h !! lp = Some (ODict p) ∧
      arrays !! i = Some la ∧ h !! la = Some (OArray arr) ∧
      (a = arr ∨ (ndim arr = 2%nat ∧ a = newaxis arr)).
Proof.
  intros Hin.
  apply merge_inputs_Ok in Hin
    as (arrs & profs & n & Harrs & Hprofs & _ & Hlen & Hn & Hsame & ->).
  apply mapM_get_array_Ok in Harrs. apply mapM_get_dict_Ok in Hprofs.
  pose proof (Forall2_length _ _ _ Harrs) as Hla.
  pose proof (Forall2_length _ _ _ Hprofs) as Hlp.
  split.
  - rewrite length_zip_with. destruct (bool_decide (n = 2%nat));
      rewrite ?length_fmap; lia.
  - intros i p a Hi.
    apply lookup_zip_with_Some in Hi as (p' & a' & Heq & Hp & Ha).
    injection Heq as -> ->.
    destruct (Forall2_lookup_r _ _ _ _ _ Hprofs Hp) as (lp & Hlp' & Hdict).
    destruct (bool_decide (n = 2%nat)) eqn:Hn2.
    + apply bool_decide_eq_true in Hn2. subst n.
      rewrite list_lookup_fmap in Ha.
      destruct (arrs !! i) as [arr|] eqn:Harr; [|discriminate].
      cbn in Ha. injection Ha as <-.
      destruct (Forall2_lookup_r _ _ _ _ _ Harrs Harr) as (la & Hla' & Hobj).
      assert (Hdim : ndim arr = 2%nat)
        by (apply Hsame; eapply list_elem_of_lookup_2; eassumption).
      split; [unfold ndim, newaxis in *; cbn; lia|].
      exists lp, la, arr. auto 10.
    + apply bool_decide_eq_false in Hn2.
      destruct (Forall2_lookup_r _ _ _ _ _ Harrs Ha) as (la & Hla' & Hobj).
      assert (Hdim : ndim a' = n)
        by (apply Hsame; eapply list_elem_of_lookup_2; eassumption).
      split; [destruct Hn; congruence|].
      exists lp, la, a'. auto 10.
Qed.

End ExpandResults.

Section ExpandRuns.
Local Open Scope Q_scope.
Local Abbreviation run_expand :=
  (expand_raster_to_bounds (F := Q) (rasterio := reference_rasterio)).

Lemma ref_np_full_shape (shp : list Z) (v : Q) (dt : value Q) (arr : ndarray Q) :
  ref_np_full shp v dt = Ok arr → shape arr = shp.
Proof.
  unfold ref_np_full. destruct dt; try discriminate.
  destruct (forallb (Z.leb 0) shp); [|discriminate].
  intros Hfull. injection Hfull as <-. reflexivity.
Qed.



Lemma merge_inputs_pairs_profiles_with_arrays_witness :
  ∃ datasets,
    merge_inputs (F := Q) [2%nat; 2%nat] [1%nat; 3%nat] sample_store = Ok datasets ∧
    length datasets = 2%nat.
Proof.
  destruct (merge_inputs (F := Q) [2%nat; 2%nat] [1%nat; 3%nat] sample_store)
    as [datasets|e] eqn:Hrun.
  - exists datasets. split; [reflexivity|].
    exact (proj1 (merge_inputs_pairs_profiles_with_arrays _ _ _ _ Hrun)).
  - exfalso.
    assert (Hok : returned (merge_inputs (F := Q) [2%nat; 2%nat] [1%nat; 3%nat] sample_store) = true)
      by (vm_compute; reflexivity).
    rewrite Hrun in Hok. discriminate Hok.
Defined.




End ExpandRuns.

(** ** [expand_raster_to_bounds]: a degenerate transform *)

Section ZeroPixel.
Context {F FS : Type} {float_ops : PyFloat F} {rasterio : Rasterio F FS}.
Local Abbreviation heap := (list (object F)).
Local Abbreviation profile := (gmap string (value F)).

(** A source profile whose transform has a zero pixel width stops the
    expansion with [ZeroDivisionError], whatever the target bounds, the
    array and the save path are; this holds for every float arithmetic,
    binary64 included. *)
Theorem expand_raster_to_bounds_zero_pixel_width (trg_bounds : bounds F)
    (lp : loc) (src_array : option loc) (fill_value : F) (save_path : string)
    (h : heap) (fs : FS) (d : profile) (height width : Z) (t : affine F)
    (b : bounds F) :
  h !! lp = Some (ODict d) →
  d !! "height" = Some (VInt height) → d !! "width" = Some (VInt width) →
  d !! "transform" = Some (VAffine t) →
  array_bounds height width t = Ok b →
  fis_zero (fabs (af_a t)) = true →
  expand_raster_to_bounds trg_bounds "" (Some lp) src_array fill_value
    save_path h fs = Raise ZeroDivisionError.
Proof.
  intros Hl Hheight Hwidth Ht Hb Hzero.
  assert (Hd : d ≠ ∅).
  { intros ->. rewrite lookup_empty in Ht. discriminate Ht. }
  unfold expand_raster_to_bounds.
  assert (Hcheck : check_source_arguments "" (Some lp) src_array h = Ok tt).
  { unfold check_source_arguments, profile_truthy.
    change (non_empty "") with false.
    apply get_dict_Ok in Hl as Hget. rewrite Hget. cbn [mbind result_bind].
    rewrite bool_decide_eq_false_2 by assumption. cbn. now rewrite orb_true_r. }
  rewrite Hcheck. cbn [mbind result_bind].
  unfold resolve_source. change (non_empty "") with false.
  cbn [mbind result_bind].
  rewrite !(dict_getitem_lookup h lp d) by assumption.
  rewrite Hheight, Hwidth, Ht. cbn [mbind result_bind as_int as_affine].
  rewrite Hb. cbn [mbind result_bind].
  unfold build_fill. rewrite (dict_getitem_lookup h lp d) by assumption.
  rewrite Ht. cbn [mbind result_bind as_affine].
  destruct trg_bounds as [tl tb tr tt], b as [sl sb sr st].
  unfold expand_extent, new_pixels, py_div. rewrite Hzero. reflexivity.
Qed.

End ZeroPixel.

Section ZeroPixelRun.

Lemma expand_raster_to_bounds_zero_pixel_width_witness :
  expand_raster_to_bounds (F := float) (rasterio := reference_rasterio)
    (Bounds 99 (-71) 101 (-69))%float "" (Some 0%nat) None 0%float ""
    [ODict (<["transform" := VAffine (Affine 0 0 100 0 (-0.1) (-70))%float]>
              tenth_degree_profile)] ∅
  = Raise ZeroDivisionError.
Proof.
  apply (expand_raster_to_bounds_zero_pixel_width (rasterio := reference_rasterio)
           _ _ _ _ _ _ _
           (<["transform" := VAffine (Affine 0 0 100 0 (-0.1) (-70))%float]>
              tenth_degree_profile)
           3%Z 3%Z (Affine 0 0 100 0 (-0.1) (-70))%float
           (north_up_bounds 3 3 (Affine 0 0 100 0 (-0.1) (-70))%float));
    vm_compute; reflexivity.
Defined.

End ZeroPixelRun.
